(** * HomeStream: the [GET /stream/:filename] handler

    A shallow embedding of the video streaming route of [server.js]
    (lines 326-364 of the server source) together with the parts of the
    JavaScript and Node.js platform the handler calls:

    - [String.prototype.replace] with a literal pattern, [split],
      [parseInt(_, 10)] and number-to-string conversion of template
      literals;
    - [path.join] (POSIX flavour), [fs.existsSync], [fs.statSync] and
      [fs.createReadStream];
    - the Express response object ([status], [json], [writeHead]) and
      [stream.pipe].

    The handler itself is written in a small error-and-state monad so that
    the order of its effects (file-system calls, response writes, thrown
    exceptions) is the order of the statements of the source.

    The handler receives [req.params.filename] as Express hands it over,
    that is, percent-decoded: it may hold [/] and [..].  An exception that
    leaves the handler is answered by Express (status 500), outside the
    handler; here such a run ends in [Throw] with nothing written. *)

From Stdlib Require Import ZArith NArith Lia Ascii String List Bool.
From Stdlib Require Import Decimal DecimalString DecimalN DecimalFacts.
From stdpp Require Import base gmap strings list.

Local Open Scope string_scope.
Local Open Scope Z_scope.

(** ** JavaScript numbers

    Every number the handler manipulates is [NaN], an infinity, or a double
    whose value is an integer.  [Num z] stands for the double nearest to the
    integer [z]; it is exact for [|z| <= 2^53], which covers every value the
    handler can observe: [fs.createReadStream] throws on any [start] or
    [end] that is not a safe integer before the handler builds its headers.
    Beyond that range sums are taken without rounding, which only decides
    that such a value is not a safe integer.  Signed zero is not
    distinguished (no [-] survives [split('-')]). *)

Inductive number : Type :=
| NaN
| Num (z : Z)
| PosInf
| NegInf.

Definition MAX_SAFE_INTEGER : Z := 9007199254740991.

(** Integers at or beyond [2^1024 - 2^970] round to an infinity. *)
Definition DOUBLE_OVERFLOW : Z := 2 ^ 1024 - 2 ^ 970.

Definition of_mathint (z : Z) : number :=
  if DOUBLE_OVERFLOW <=? z then PosInf
  else if z <=? - DOUBLE_OVERFLOW then NegInf
  else Num z.

(** [a + b] on numbers. *)
Definition num_add (a b : number) : number :=
  match a, b with
  | NaN, _ | _, NaN => NaN
  | Num x, Num y => of_mathint (x + y)
  | PosInf, NegInf | NegInf, PosInf => NaN
  | PosInf, _ | _, PosInf => PosInf
  | NegInf, _ | _, NegInf => NegInf
  end.

Definition num_neg (a : number) : number :=
  match a with
  | NaN => NaN
  | Num x => Num (- x)
  | PosInf => NegInf
  | NegInf => PosInf
  end.

(** [a - b] on numbers. *)
Definition num_sub (a b : number) : number := num_add a (num_neg b).

(** [Number.isInteger(v) && lo <= v <= MAX_SAFE_INTEGER]: the test of
    Node's [validateInteger(v, name, lo)]. *)
Definition is_integer_from (lo : Z) (v : number) : bool :=
  match v with
  | Num z => (lo <=? z) && (z <=? MAX_SAFE_INTEGER)
  | _ => false
  end.

(** ** Strings

    Strings are sequences of 8-bit code units: header values reach the
    handler decoded as Latin-1, and path names only matter here through the
    ASCII characters [/] and [.]. *)

(** Decimal digits of a natural number, as [Number::toString] prints an
    integer below [10^21]. *)
Definition digits_of_N (n : N) : string :=
  NilEmpty.string_of_uint (N.to_uint n).

(** [String(v)], the conversion a template literal applies to a number. *)
Definition toString (v : number) : string :=
  match v with
  | NaN => "NaN"
  | PosInf => "Infinity"
  | NegInf => "-Infinity"
  | Num z => if z <? 0 then "-" +:+ digits_of_N (Z.to_N (- z))
             else digits_of_N (Z.to_N z)
  end.

(** White space that [parseInt] skips, restricted to code units below 256:
    TAB, LF, VT, FF, CR, SP and NBSP. *)
Definition is_whitespace (c : ascii) : bool :=
  match c with
  | "009" | "010" | "011" | "012" | "013" | " " | "160" => true
  | _ => false
  end%char.

Fixpoint skip_whitespace (s : string) : string :=
  match s with
  | String c r => if is_whitespace c then skip_whitespace r else s
  | EmptyString => s
  end.

Definition digit_of_ascii (c : ascii) : option (uint -> uint) :=
  match c with
  | "0"%char => Some D0 | "1"%char => Some D1 | "2"%char => Some D2
  | "3"%char => Some D3 | "4"%char => Some D4 | "5"%char => Some D5
  | "6"%char => Some D6 | "7"%char => Some D7 | "8"%char => Some D8
  | "9"%char => Some D9
  | _ => None
  end.

(** The longest prefix of [s] made of decimal digits, most significant
    digit first; [Nil] when [s] does not start with a digit. *)
Fixpoint digit_prefix (s : string) : uint :=
  match s with
  | String c r =>
      match digit_of_ascii c with
      | Some d => d (digit_prefix r)
      | None => Nil
      end
  | EmptyString => Nil
  end.

(** [parseInt(s, 10)]: skip leading white space, read an optional sign and
    the longest run of decimal digits; [NaN] when there is no digit.  The
    radix is 10 at both call sites of the handler. *)
Definition parseInt (s : string) : number :=
  let s1 := skip_whitespace s in
  let '(negative, s2) :=
    match s1 with
    | String "-"%char r => (true, r)
    | String "+"%char r => (false, r)
    | _ => (false, s1)
    end in
  match digit_prefix s2 with
  | Nil => NaN
  | d => let m := Z.of_N (N.of_uint d) in
         of_mathint (if negative then - m else m)
  end.

(** [s.replace(pat, repl)] for a pattern without metacharacters (here the
    regular expression [/bytes=/]): the first occurrence of [pat], wherever
    it starts, is replaced. *)
Fixpoint replace (pat repl s : string) : string :=
  if String.prefix pat s then
    repl +:+ String.substring (String.length pat)
                             (String.length s - String.length pat)%nat s
  else match s with
       | String c r => String c (replace pat repl r)
       | EmptyString => EmptyString
       end.

(** [s.split(sep)] for a one-character separator: always at least one
    part. *)
Fixpoint split (sep : ascii) (s : string) : list string :=
  match s with
  | EmptyString => [EmptyString]
  | String c r =>
      if Ascii.eqb c sep then EmptyString :: split sep r
      else match split sep r with
           | p :: ps => String c p :: ps
           | [] => [String c EmptyString]
           end
  end.

(** Truthiness of [parts[i]]: [undefined] and the empty string are falsy. *)
Definition truthy (v : option string) : bool :=
  match v with
  | Some (String _ _) => true
  | _ => false
  end.

(** [ToString(v)] of a value that is a string or [undefined]. *)
Definition ToString (v : option string) : string :=
  match v with
  | Some s => s
  | None => "undefined"
  end.

(** [s] ends with the separator [/]. *)
Fixpoint ends_with_slash (s : string) : bool :=
  match s with
  | EmptyString => false
  | String c EmptyString => Ascii.eqb c "/"
  | String _ r => ends_with_slash r
  end.

(** ** Paths ([path.join], POSIX flavour)

    An absolute path is the list of its segments from the root, with a flag
    for a trailing separator, which [path.normalize] keeps. *)

Record path : Type := Path { segs : list string; trailing : bool }.

(** One segment of [normalizeString] on an absolute path: empty and [.]
    segments are dropped, [..] removes the last kept segment (and is
    dropped at the root).  The kept segments are held last-first. *)
Definition normalize_step (kept : list string) (seg : string) : list string :=
  if String.eqb seg "" || String.eqb seg "." then kept
  else if String.eqb seg ".." then tail kept
  else seg :: kept.

Definition normalize (l : list string) : list string :=
  rev (fold_left normalize_step l []).

(** [path.join(base, arg)]: the arguments are joined by [/] (a zero-length
    argument is ignored) and the result is normalized. *)
Definition path_join (base : path) (arg : string) : path :=
  let s := normalize (segs base ++ split "/" arg) in
  let slash := match arg with
               | EmptyString => trailing base
               | _ => ends_with_slash arg
               end in
  {| segs := s; trailing := slash && negb (bool_decide (s = [])) |}.

(** ** The file system

    A snapshot of the file system for the duration of one request: what
    exists at each normalized absolute path.  [fs.Stats.size] is a number,
    so a regular file has fewer than [2^53] bytes. *)

Record file : Type := mkFile {
  bytes : list Byte.byte;
  size_safe : (Z.of_nat (length bytes) <=? MAX_SAFE_INTEGER) = true
}.

(** A directory carries the size that [stat] reports for it, which
    depends on the platform. *)
Inductive node : Type :=
| File (f : file)
| Dir (dir_size : Z).

Abbreviation filesystem := (gmap (list string) node).

(** What a system call finds at [p]: a regular file is not found under a
    name with a trailing separator (ENOTDIR). *)
Definition lookup_path (fs : filesystem) (p : path) : option node :=
  match fs !! segs p with
  | Some (File f) => if trailing p then None else Some (File f)
  | r => r
  end.

Definition file_size (f : file) : Z := Z.of_nat (length (bytes f)).

Definition node_size (n : node) : Z :=
  match n with
  | File f => file_size f
  | Dir sz => sz
  end.

(** ** Effects: file-system calls, the response object, exceptions *)

(** A read stream as [fs.createReadStream] sets it up: it reads from
    offset [rs_start] through offset [rs_end] inclusive, or to the end of
    the file when [rs_end] is [None] ([Infinity]). *)
Record ReadStream : Type := mkReadStream {
  rs_path : path;
  rs_start : Z;
  rs_end : option Z
}.

Inductive fs_call : Type :=
| ExistsSync (p : path)
| StatSync (p : path)
| OpenReadStream (rs : ReadStream).

Inductive header_value : Type :=
| HStr (s : string)
| HNum (v : number).

Abbreviation headers := (list (string * header_value)).

(** What a response carries: the object given to [res.json], or the read
    stream piped into it. *)
Inductive res_body : Type :=
| JsonBody (obj : list (string * string))
| PipedBody (rs : ReadStream).

(** The Express response object. *)
Record response : Type := mkResponse {
  statusCode : Z;
  headersSent : bool;
  res_headers : headers;
  body : option res_body
}.

Record world : Type := mkWorld {
  fs_calls : list fs_call;
  res : response
}.

Inductive error : Type :=
| ERR_OUT_OF_RANGE (name : string)
| ENOENT (p : path).

Inductive result (A : Type) : Type :=
| Ok (a : A)
| Throw (e : error).
Arguments Ok {A} a.
Arguments Throw {A} e.

(** The monad of the handler: a computation reads and extends the world
    and either returns or throws. *)
Definition M (A : Type) : Type := world -> result A * world.

Definition ret {A} (a : A) : M A := fun w => (Ok a, w).

Definition bind {A B} (m : M A) (k : A -> M B) : M B :=
  fun w => match m w with
           | (Ok a, w') => k a w'
           | (Throw e, w') => (Throw e, w')
           end.

Definition throw {A} (e : error) : M A := fun w => (Throw e, w).

Definition log_call (c : fs_call) : M unit :=
  fun w => (Ok tt, {| fs_calls := fs_calls w ++ [c]; res := res w |}).

Definition update_res (f : response -> response) : M unit :=
  fun w => (Ok tt, {| fs_calls := fs_calls w; res := f (res w) |}).

Declare Scope handler_scope.
Delimit Scope handler_scope with handler.
Notation "x <- m ;; k" := (bind m (fun x => k))
  (at level 100, m at next level, right associativity) : handler_scope.
Notation "m ;;; k" := (bind m (fun _ => k))
  (at level 100, right associativity) : handler_scope.

Local Open Scope handler_scope.

Section FileSystemCalls.

Variable fs : filesystem.

(** [fs.existsSync(p)]: true for a file or a directory. *)
Definition existsSync (p : path) : M bool :=
  log_call (ExistsSync p) ;;;
  ret (bool_decide (is_Some (lookup_path fs p))).

(** [fs.statSync(p).size]. *)
Definition statSync (p : path) : M number :=
  log_call (StatSync p) ;;;
  match lookup_path fs p with
  | Some n => ret (Num (node_size n))
  | None => throw (ENOENT p)
  end.

(** [fs.createReadStream(p, { start, end })], and [fs.createReadStream(p)]
    when [opts] is [None].  The options are validated when the stream is
    constructed: [start] and a finite [end] must be integers in
    [0 .. MAX_SAFE_INTEGER] with [start <= end], otherwise the call throws
    a RangeError and no stream exists. *)
Definition createReadStream (p : path) (opts : option (number * number))
  : M ReadStream :=
  match opts with
  | None =>
      let rs := mkReadStream p 0 None in
      log_call (OpenReadStream rs) ;;; ret rs
  | Some (start, end_) =>
      match start, end_ with
      | Num s, PosInf =>
          if is_integer_from 0 start then
            let rs := mkReadStream p s None in
            log_call (OpenReadStream rs) ;;; ret rs
          else throw (ERR_OUT_OF_RANGE "start")
      | Num s, Num e =>
          if negb (is_integer_from 0 start) then
            throw (ERR_OUT_OF_RANGE "start")
          else if negb (is_integer_from 0 end_) then
            throw (ERR_OUT_OF_RANGE "end")
          else if e <? s then throw (ERR_OUT_OF_RANGE "start")
          else
            let rs := mkReadStream p s (Some e) in
            log_call (OpenReadStream rs) ;;; ret rs
      | Num s, _ =>
          if is_integer_from 0 start then throw (ERR_OUT_OF_RANGE "end")
          else throw (ERR_OUT_OF_RANGE "start")
      | _, _ => throw (ERR_OUT_OF_RANGE "start")
      end
  end.

(** The bytes a read stream delivers: the window of the file from
    [rs_start] through [rs_end], cut at the end of the file.  Reading a
    directory or a missing file fails ([None]): the stream delivers no
    data and emits ['error']. *)
Definition stream_bytes (rs : ReadStream) : option (list Byte.byte) :=
  match lookup_path fs (rs_path rs) with
  | Some (File f) =>
      let from := drop (Z.to_nat (rs_start rs)) (bytes f) in
      match rs_end rs with
      | Some e => Some (take (Z.to_nat (e - rs_start rs + 1)) from)
      | None => Some from
      end
  | _ => None
  end.

End FileSystemCalls.

(** [res.status(code)]. *)
Definition res_status (code : Z) : M unit :=
  update_res (fun r => mkResponse code (headersSent r) (res_headers r) (body r)).

(** [res.json(obj)]: sends the response with the current status code. *)
Definition res_json (obj : list (string * string)) : M unit :=
  update_res (fun r =>
    mkResponse (statusCode r) true
      [("Content-Type", HStr "application/json; charset=utf-8")]
      (Some (JsonBody obj))).

(** [res.writeHead(code, head)]. *)
Definition res_writeHead (code : Z) (head : headers) : M unit :=
  update_res (fun r => mkResponse code true head (body r)).

(** [stream.pipe(res)]. *)
Definition pipe (rs : ReadStream) : M unit :=
  update_res (fun r =>
    mkResponse (statusCode r) (headersSent r) (res_headers r)
      (Some (PipedBody rs))).

(** ** The server *)

Record request : Type := mkRequest {
  params_filename : string;
  headers_range : option string
}.

Section Server.

(** The directory of [server.js]. *)
Variable __dirname : path.
Variable fs : filesystem.

Definition mediaDir : path := path_join __dirname "media".
Definition videosDir : path := path_join mediaDir "videos".

(** [app.get('/stream/:filename', (req, res) => ...)]. *)
Definition stream_handler (req : request) : M unit :=
  let videoPath := path_join videosDir (params_filename req) in
  found <- existsSync fs videoPath ;;
  if negb found then
    res_status 404 ;;;
    res_json [("error", "Video not found")]
  else
    fileSize <- statSync fs videoPath ;;
    let range := headers_range req in
    if truthy range then
      let parts := split "-" (replace "bytes=" "" (ToString range)) in
      let start := parseInt (ToString (parts !! 0%nat)) in
      let end_ := if truthy (parts !! 1%nat)
                  then parseInt (ToString (parts !! 1%nat))
                  else num_sub fileSize (Num 1) in
      let chunkSize := num_add (num_sub end_ start) (Num 1) in
      file <- createReadStream videoPath (Some (start, end_)) ;;
      let head :=
        [("Content-Range",
          HStr ("bytes " +:+ toString start +:+ "-" +:+ toString end_
                +:+ "/" +:+ toString fileSize));
         ("Accept-Ranges", HStr "bytes");
         ("Content-Length", HNum chunkSize);
         ("Content-Type", HStr "video/mp4")] in
      res_writeHead 206 head ;;;
      pipe file
    else
      let head :=
        [("Content-Length", HNum fileSize);
         ("Content-Type", HStr "video/mp4")] in
      res_writeHead 200 head ;;;
      file <- createReadStream videoPath None ;;
      pipe file.

Definition initial_world : world :=
  mkWorld [] (mkResponse 200 false [] None).

(** One request, from a fresh response object. *)
Definition serve (req : request) : result unit * world :=
  stream_handler req initial_world.

End Server.

(** The path a request is served from: [videoPath] in the handler. *)
Definition resolved (__dirname : path) (filename : string) : path :=
  path_join (videosDir __dirname) filename.

(** The world once the existence check and the [stat] call are made. *)
Definition after_stat (p : path) : world :=
  mkWorld [ExistsSync p; StatSync p] (mkResponse 200 false [] None).

(** ** Observing a handled request *)

(** The status line the handler has written, if it has written one. *)
Definition status_written (w : world) : option Z :=
  if headersSent (res w) then Some (statusCode (res w)) else None.

Fixpoint assoc (name : string) (h : headers) : option header_value :=
  match h with
  | [] => None
  | (k, v) :: h' => if String.eqb k name then Some v else assoc name h'
  end.

(** The value of a response header. *)
Definition header (name : string) (w : world) : option header_value :=
  assoc name (res_headers (res w)).

(** The read streams opened during the request. *)
Definition opened_streams (w : world) : list ReadStream :=
  omap (fun c => match c with OpenReadStream rs => Some rs | _ => None end)
       (fs_calls w).

(** The path a file-system call is made on. *)
Definition call_path (c : fs_call) : path :=
  match c with
  | ExistsSync p | StatSync p => p
  | OpenReadStream rs => rs_path rs
  end.

(** The bytes of the body, when the body is a piped read stream that can
    be read. *)
Definition body_sent (fs : filesystem) (w : world) : option (list Byte.byte) :=
  match body (res w) with
  | Some (PipedBody rs) => stream_bytes fs rs
  | _ => None
  end.

(** ** Vocabulary of the specification *)

(** [filename] resolves to the regular file [f]. *)
Definition resolves_to (__dirname : path) (fs : filesystem)
    (filename : string) (f : file) : Prop :=
  lookup_path fs (resolved __dirname filename) = Some (File f).

(** A segment that normalization keeps: not empty, not [.], not [..]. *)
Definition ordinary (s : string) : bool :=
  negb (String.eqb s "" || String.eqb s ".") && negb (String.eqb s "..").

(** A name that is one ordinary path segment, without separator. *)
Definition plain_segment (s : string) : bool :=
  ordinary s && bool_decide (split "/" s = [s]).

(** The file [f] is the entry [filename] of the videos directory. *)
Definition present_in_videos (__dirname : path) (fs : filesystem)
    (filename : string) (f : file) : Prop :=
  plain_segment filename = true /\
  fs !! (segs (videosDir __dirname) ++ [filename])%list = Some (File f).

(** [p] lies inside the directory [d]. *)
Definition inside (d p : path) : Prop :=
  exists rest, rest <> [] /\ segs p = (segs d ++ rest)%list.

(** [p] is the directory [d] or lies below it. *)
Definition at_or_below (d p : path) : Prop :=
  exists rest, segs p = (segs d ++ rest)%list.

(** No segment of the identifier [s] is [..]. *)
Definition no_dotdot (s : string) : bool :=
  forallb (fun seg => negb (String.eqb seg "..")) (split "/" s).

(** The header value [bytes=<s>-<e>]. *)
Definition bytes_range (s e : Z) : string :=
  "bytes=" +:+ toString (Num s) +:+ "-" +:+ toString (Num e).

(** The header value [bytes=<s>-]. *)
Definition bytes_from (s : Z) : string :=
  "bytes=" +:+ toString (Num s) +:+ "-".

(** The header value [bytes <s>-<e>/<size>]. *)
Definition content_range (s e size : Z) : string :=
  "bytes " +:+ toString (Num s) +:+ "-" +:+ toString (Num e)
  +:+ "/" +:+ toString (Num size).

(** [b] is the part of [data] from offset [s] through offset [e]. *)
Definition is_slice (data b : list Byte.byte) (s e : Z) : Prop :=
  Z.of_nat (length b) = e - s + 1 /\
  forall i : nat, (i < length b)%nat -> b !! i = data !! (Z.to_nat s + i)%nat.

(** ** A deployment used in examples *)

Definition app_dir : path := Path ["srv"; "homestream"] false.

Definition sample_bytes (n : nat) : list Byte.byte :=
  map (fun i => default Byte.x00 (Byte.of_nat (i mod 256))) (seq 0 n).

Definition clip : file := mkFile (sample_bytes 10) eq_refl.
Definition movie : file := mkFile (sample_bytes 2048) eq_refl.
Definition script : file := mkFile (sample_bytes 7) eq_refl.

Definition disk : filesystem :=
  <[ ["srv"; "homestream"; "media"; "videos"; "clip.mp4"] := File clip ]>
  (<[ ["srv"; "homestream"; "media"; "videos"; "movie.mp4"] := File movie ]>
  (<[ ["srv"; "homestream"; "media"; "videos"] := Dir 4096 ]>
  (<[ ["srv"; "homestream"; "server.js"] := File script ]> ∅))).

(** ** A piped stream after the handler has returned *)

(** The error of a read stream's ['error'] event. *)
Inductive read_error : Type :=
| OpenENOENT (p : path)
| OpenENOTDIR (p : path)
| ReadEISDIR (p : path).

(** How reading the stream fails, if it does.  [fs.createReadStream]
    opens its path once the stream starts to flow, after the handler has
    returned: a missing path fails with ENOENT and a regular file under a
    name with a trailing separator with ENOTDIR; a directory is opened,
    and the first read from it fails with EISDIR. *)
Definition stream_error (fs : filesystem) (rs : ReadStream)
  : option read_error :=
  match fs !! segs (rs_path rs) with
  | None => Some (OpenENOENT (rs_path rs))
  | Some (Dir _) => Some (ReadEISDIR (rs_path rs))
  | Some (File _) =>
      if trailing (rs_path rs) then Some (OpenENOTDIR (rs_path rs)) else None
  end.

(** The uncaught exception a request ends in.  The handler registers no
    ['error'] listener on the stream it pipes ([file.pipe(res)] and
    [fs.createReadStream(videoPath).pipe(res)] are all it does with the
    stream), and [pipe] registers none on its source: an ['error'] event
    of the piped stream is thrown as an uncaught exception, which ends
    the process. *)
Definition uncaught_error (fs : filesystem) (w : world) : option read_error :=
  match body (res w) with
  | Some (PipedBody rs) => stream_error fs rs
  | _ => None
  end.

(** Whether what the handler wrote reaches the client.  [res.json] sends
    the response at once.  [res.writeHead] only stores the status line
    and the headers, which go out with the first chunk of the body or at
    its end: when the piped stream fails before its first chunk, nothing
    has been sent by the time the process ends. *)
Definition response_sent (fs : filesystem) (w : world) : bool :=
  match body (res w) with
  | Some (JsonBody _) => true
  | Some (PipedBody rs) => bool_decide (stream_error fs rs = None)
  | None => false
  end.

(** ** Further vocabulary for range headers *)

(** [s] begins with a decimal digit. *)
Definition starts_with_digit (s : string) : bool :=
  match s with
  | String c _ => bool_decide (is_Some (digit_of_ascii c))
  | EmptyString => false
  end.

(** ** [path.extname] (POSIX flavour)

    Node scans the path from its last character to its first.  The indices
    it keeps are held here as the pieces of the path they delimit:
    [es_taken] is [path.slice(i, end)], [es_ext] is
    [path.slice(startDot, end)] and [es_before] is [startDot - i]. *)

Inductive pre_dot_state : Type :=
| PreDotUnset    (* 0 *)
| PreDotDot      (* 1 *)
| PreDotOther.   (* -1 *)

Record extname_state : Type := mkExtnameState {
  es_end : bool;            (* end !== -1 *)
  es_matchedSlash : bool;
  es_startDot : bool;       (* startDot !== -1 *)
  es_preDot : pre_dot_state;
  es_taken : string;
  es_ext : string;
  es_before : nat
}.

Definition extname_init : extname_state :=
  mkExtnameState false true false PreDotUnset "" "" 0.

(** The loop body, over the characters of the path last-first; a
    separator that follows the last component ends the scan. *)
Fixpoint extname_loop (backwards : list ascii) (st : extname_state)
  : extname_state :=
  match backwards with
  | [] => st
  | c :: rest =>
      if Ascii.eqb c "/" then
        if negb (es_matchedSlash st) then st else extname_loop rest st
      else
        let taken := String c (es_taken st) in
        if Ascii.eqb c "." then
          if negb (es_startDot st) then
            extname_loop rest
              (mkExtnameState true false true (es_preDot st) taken taken
                 (es_before st))
          else
            extname_loop rest
              (mkExtnameState true false true PreDotDot taken (es_ext st)
                 (S (es_before st)))
        else if es_startDot st then
          extname_loop rest
            (mkExtnameState true false true PreDotOther taken (es_ext st)
               (S (es_before st)))
        else
          extname_loop rest
            (mkExtnameState true false false (es_preDot st) taken (es_ext st)
               (es_before st))
  end.

(** [path.extname(p)]: from the last dot of the last component to its end;
    empty when there is no dot, when the dot leads the component, or when
    the component is [..]. *)
Definition extname (p : string) : string :=
  let st := extname_loop (rev (list_ascii_of_string p)) extname_init in
  if negb (es_startDot st) || negb (es_end st)
     || match es_preDot st with PreDotUnset => true | _ => false end
     || (match es_preDot st with PreDotDot => true | _ => false end
         && String.eqb (es_ext st) "." && Nat.eqb (es_before st) 1)
  then ""
  else es_ext st.

(** ** Upload storage ([multer.diskStorage] callbacks) and recorded paths *)

Definition thumbnailsDir (__dirname : path) : path :=
  path_join (mediaDir __dirname) "thumbnails".

(** [destination]: thumbnails go to the thumbnails directory, every other
    field to the videos directory. *)
Definition storage_destination (__dirname : path) (fieldname : string) : path :=
  if String.eqb fieldname "thumbnail" then thumbnailsDir __dirname
  else videosDir __dirname.

(** [filename]: a fresh identifier followed by the extension of the
    original name; [uuid] is what [uuidv4()] returned. *)
Definition storage_filename (uuid originalname : string) : string :=
  uuid +:+ extname originalname.

(** Where multer writes the upload: [path.join(destination, filename)]. *)
Definition stored_at (__dirname : path) (fieldname filename : string) : path :=
  path_join (storage_destination __dirname fieldname) filename.

(** What [uuidv4()] returns is a non-empty run of lower-case hexadecimal
    digits and dashes. *)
Definition is_hex_or_dash (c : ascii) : bool :=
  match c with
  | "0" | "1" | "2" | "3" | "4" | "5" | "6" | "7" | "8" | "9"
  | "a" | "b" | "c" | "d" | "e" | "f" | "-" => true
  | _ => false
  end%char.

Definition uuid_like (s : string) : bool :=
  negb (String.eqb s "") && forallb is_hex_or_dash (list_ascii_of_string s).

(** The upload handlers record [`/media/videos/${filename}`] when a video
    was stored, and [null] otherwise. *)
Definition recorded_video_path (filename : option string) : option string :=
  if truthy filename then Some ("/media/videos/" +:+ ToString filename)
  else None.

Definition recorded_thumbnail_path (filename : option string) : option string :=
  if truthy filename then Some ("/media/thumbnails/" +:+ ToString filename)
  else None.

(** The browser client: [video_path.split('/').pop()]. *)
Definition client_filename (video_path : string) : string :=
  default "" (last (split "/" video_path)).

(** An unreserved character of a URL: a letter, a digit, [-], [.], [_]
    or [~]. *)
Definition is_unreserved (c : ascii) : bool :=
  let n := N_of_ascii c in
  ((48 <=? n) && (n <=? 57) || (65 <=? n) && (n <=? 90)
   || (97 <=? n) && (n <=? 122)
   || (n =? 45) || (n =? 46) || (n =? 95) || (n =? 126))%N.

Definition url_unreserved (s : string) : bool :=
  forallb is_unreserved (list_ascii_of_string s).

(** [t] takes the file name the client writes after [/stream/] in
    [player.src] to what the handler finds in [req.params.filename], if
    the request reaches the handler.  In between lie the URL parser of
    the browser and the decoding of the route parameter by Express,
    neither of them code of this repository; the client does not encode
    the name.  [carries_unreserved t] is all that is assumed of them: a
    non-empty name of unreserved characters that is not a dot segment
    arrives as it was written. *)
Definition carries_unreserved (t : string -> option string) : Prop :=
  forall s, url_unreserved s = true ->
            s <> "" -> s <> "." -> s <> ".." -> t s = Some s.

(** [s] holds no [/]. *)
Definition no_slash (s : string) : bool :=
  forallb (fun c => negb (Ascii.eqb c "/")) (list_ascii_of_string s).

(** ** The catalog and the [DELETE /api/content/:id] handler *)

(** A row of the [content] table; nullable columns are options. *)
Record content_row : Type := mkContent {
  c_id : string;
  c_title : string;
  c_description : option string;
  c_type : string;
  c_genre : option string;
  c_year : option number;
  c_thumbnail : option string;
  c_video_path : option string;
  c_duration : option Z;
  c_created_at : string;
  c_updated_at : string
}.

(** The [content] table, keyed by its primary key. *)
Abbreviation content_table := (gmap string content_row).

(** What a failed [fs.unlinkSync] throws. *)
Inductive unlink_error : Type :=
| EISDIR (p : path)
| UnlinkENOENT (p : path).

(** The body given to [res.json] by the catalog handlers. *)
Inductive api_body : Type :=
| ApiMessage (message : string)        (* { message: ... } *)
| ApiError (message : string)          (* { error: ... } *)
| ApiErrorOf (e : unlink_error).       (* { error: error.message } *)

Record api_response : Type := mkApiResponse {
  api_statusCode : Z;
  api_sent : option api_body
}.

(** The state a catalog handler works on: the file system, the table and
    the response object. *)
Record app_state : Type := mkAppState {
  st_fs : filesystem;
  st_content : content_table;
  st_res : api_response
}.

Definition Api (A : Type) : Type := app_state -> (A + unlink_error) * app_state.

Definition api_ret {A} (a : A) : Api A := fun st => (inl a, st).

Definition api_bind {A B} (m : Api A) (k : A -> Api B) : Api B :=
  fun st => match m st with
            | (inl a, st') => k a st'
            | (inr e, st') => (inr e, st')
            end.

(** [try { m } catch (error) { handler(error) }]: what [m] did before it
    threw stays done. *)
Definition try_catch {A} (m : Api A) (handler : unlink_error -> Api A) : Api A :=
  fun st => match m st with
            | (inl a, st') => (inl a, st')
            | (inr e, st') => handler e st'
            end.

Declare Scope api_scope.
Delimit Scope api_scope with api.
Notation "x <-- m ;; k" := (api_bind m (fun x => k))
  (at level 100, m at next level, right associativity) : api_scope.
Notation "m ;;;; k" := (api_bind m (fun _ => k))
  (at level 100, right associativity) : api_scope.

Local Open Scope api_scope.

(** [fs.existsSync(p)]. *)
Definition api_existsSync (p : path) : Api bool :=
  fun st => (inl (bool_decide (is_Some (lookup_path (st_fs st) p))), st).

(** [fs.unlinkSync(p)]: removes a regular file; throws on a directory and
    on a missing path. *)
Definition api_unlinkSync (p : path) : Api unit :=
  fun st =>
    match lookup_path (st_fs st) p with
    | Some (File _) =>
        (inl tt, mkAppState (delete (segs p) (st_fs st)) (st_content st)
                   (st_res st))
    | Some (Dir _) => (inr (EISDIR p), st)
    | None => (inr (UnlinkENOENT p), st)
    end.

(** [content.getById.get(id)]. *)
Definition content_getById (id : string) : Api (option content_row) :=
  fun st => (inl (st_content st !! id), st).

(** [content.delete.run(id)]. *)
Definition content_delete (id : string) : Api unit :=
  fun st => (inl tt, mkAppState (st_fs st) (delete id (st_content st))
                       (st_res st)).

(** [res.status(code)] and [res.json(body)] on the catalog routes. *)
Definition api_status (code : Z) : Api unit :=
  fun st => (inl tt, mkAppState (st_fs st) (st_content st)
                       (mkApiResponse code (api_sent (st_res st)))).

Definition api_json (b : api_body) : Api unit :=
  fun st => (inl tt, mkAppState (st_fs st) (st_content st)
                       (mkApiResponse (api_statusCode (st_res st)) (Some b))).

Section Catalog.

Variable __dirname : path.

(** [path.join(__dirname, 'public', p)]. *)
Definition public_path (p : string) : path :=
  path_join (path_join __dirname "public") p.

(** [if (fs.existsSync(file)) fs.unlinkSync(file)]. *)
Definition unlink_if_exists (file : path) : Api unit :=
  found <-- api_existsSync file ;;
  if found then api_unlinkSync file else api_ret tt.

(** [app.delete('/api/content/:id', (req, res) => ...)]. *)
Definition delete_content_handler (id : string) : Api unit :=
  try_catch
    (item <-- content_getById id ;;
     match item with
     | None =>
         api_status 404 ;;;;
         api_json (ApiError "Content not found")
     | Some item =>
         (if truthy (c_video_path item)
          then unlink_if_exists (public_path (ToString (c_video_path item)))
          else api_ret tt) ;;;;
         (if truthy (c_thumbnail item)
          then unlink_if_exists (public_path (ToString (c_thumbnail item)))
          else api_ret tt) ;;;;
         content_delete id ;;;;
         api_json (ApiMessage "Content deleted successfully")
     end)
    (fun error => api_status 500 ;;;; api_json (ApiErrorOf error)).

(** One request on a fresh response object. *)
Definition delete_content (fs : filesystem) (table : content_table)
    (id : string) : app_state :=
  (delete_content_handler id
     (mkAppState fs table (mkApiResponse 200 None))).2.

End Catalog.

(** The paths the delete handler may unlink for a row. *)
Definition delete_targets (__dirname : path) (item : content_row) : list path :=
  (if truthy (c_video_path item)
   then [public_path __dirname (ToString (c_video_path item))] else [])
  ++ (if truthy (c_thumbnail item)
      then [public_path __dirname (ToString (c_thumbnail item))] else []).

(** The file system after [if (v) { if (existsSync(p)) unlinkSync(p) }], or
    the exception thrown. *)
Definition unlink_step (__dirname : path) (fs : filesystem) (v : option string)
  : filesystem + unlink_error :=
  if truthy v then
    let p := public_path __dirname (ToString v) in
    match lookup_path fs p with
    | Some (File _) => inl (delete (segs p) fs)
    | Some (Dir _) => inr (EISDIR p)
    | None => inl fs
    end
  else inl fs.

(** ** The upload filter ([fileFilter] of multer) *)

(** [hay.includes(needle)]: an unanchored pattern without metacharacters
    matches when it occurs somewhere. *)
Fixpoint contains (needle hay : string) : bool :=
  String.prefix needle hay
  || match hay with
     | String _ r => contains needle r
     | EmptyString => false
     end.

(** [/w1|w2|.../.test(s)]. *)
Definition test_any (words : list string) (s : string) : bool :=
  existsb (fun w => contains w s) words.

(** [s.slice(1)]. *)
Definition slice1 (s : string) : string :=
  match s with
  | String _ r => r
  | EmptyString => EmptyString
  end.

Definition videoTypes : list string :=
  ["mp4"; "mkv"; "avi"; "mov"; "webm"; "m4v"].

Definition imageTypes : list string :=
  ["jpg"; "jpeg"; "png"; "gif"; "webp"].

Section UploadFilter.

(** [String.prototype.toLowerCase], which depends on Unicode tables. *)
Variable toLowerCase : string -> string.

(** [fileFilter]: the decision handed to the callback. *)
Definition fileFilter (fieldname originalname : string) : bool :=
  if String.eqb fieldname "video" then
    test_any videoTypes (slice1 (toLowerCase (extname originalname)))
  else if String.eqb fieldname "thumbnail" then
    test_any imageTypes (slice1 (toLowerCase (extname originalname)))
  else true.

End UploadFilter.

(** [s] holds no [.]. *)
Definition no_dot (s : string) : bool :=
  forallb (fun c => negb (Ascii.eqb c ".")) (list_ascii_of_string s).

(** Lower-casing of the ASCII letters, leaving every other code unit. *)
Definition ascii_lower (c : ascii) : ascii :=
  let n := nat_of_ascii c in
  if ((65 <=? n) && (n <=? 90))%nat then ascii_of_nat (n + 32) else c.

Fixpoint ascii_toLowerCase (s : string) : string :=
  match s with
  | String c r => String (ascii_lower c) (ascii_toLowerCase r)
  | EmptyString => EmptyString
  end.

(** ** [parseInt] without a radix, and [parseInt(x) || fallback] *)

(** The value of a hexadecimal digit, in either case. *)
Definition hex_digit_value (c : ascii) : option Z :=
  let n := Z.of_N (N_of_ascii c) in
  if (48 <=? n) && (n <=? 57) then Some (n - 48)
  else if (97 <=? n) && (n <=? 102) then Some (n - 87)
  else if (65 <=? n) && (n <=? 70) then Some (n - 55)
  else None.

(** The value of the longest prefix of hexadecimal digits; [acc] is [None]
    until a digit is read. *)
Fixpoint hex_prefix_value (s : string) (acc : option Z) : option Z :=
  match s with
  | String c r =>
      match hex_digit_value c with
      | Some v => hex_prefix_value r (Some (16 * default 0 acc + v))
      | None => acc
      end
  | EmptyString => acc
  end.

(** The digits of [parseInt(s)] once white space and sign are read: radix
    16 after [0x] or [0X], radix 10 otherwise; [NaN] without a digit. *)
Definition parse_unsigned (negative : bool) (s2 : string) : number :=
  let signed (m : Z) := of_mathint (if negative then - m else m) in
  let decimal :=
    match digit_prefix s2 with
    | Nil => NaN
    | d => signed (Z.of_N (N.of_uint d))
    end in
  match s2 with
  | String "0"%char (String x r) =>
      if Ascii.eqb x "x" || Ascii.eqb x "X" then
        match hex_prefix_value r None with
        | Some m => signed m
        | None => NaN
        end
      else decimal
  | _ => decimal
  end.

(** [parseInt(s)], without a radix. *)
Definition parseInt_auto (s : string) : number :=
  let s1 := skip_whitespace s in
  match s1 with
  | String "-"%char r => parse_unsigned true r
  | String "+"%char r => parse_unsigned false r
  | _ => parse_unsigned false s1
  end.

(** Truthiness of a number: [NaN] and zero are falsy. *)
Definition number_truthy (v : number) : bool :=
  match v with
  | NaN => false
  | Num z => negb (z =? 0)
  | _ => true
  end.

(** [GET /api/content/recent/:limit]: the bound handed to the query,
    [parseInt(req.params.limit) || 10]. *)
Definition recent_limit (limit : string) : number :=
  let n := parseInt_auto limit in
  if number_truthy n then n else Num 10.

(** ** The [PUT /api/content/:id] handler *)

(** The text fields of the request body; a missing field is
    [undefined]. *)
Record update_body : Type := mkUpdateBody {
  b_title : option string;
  b_description : option string;
  b_genre : option string;
  b_year : option string
}.

(** [content.update.run(title, description, genre, year, thumbnail, id)]:
    sets the five columns and [updated_at] of the row of that id. *)
Definition content_update (now : string) (title : string)
    (description genre : option string) (year : option number)
    (thumbnail : option string) (id : string) : Api unit :=
  fun st =>
    (inl tt,
     mkAppState (st_fs st)
       (alter (fun row =>
                 mkContent (c_id row) title description (c_type row) genre
                   year thumbnail (c_video_path row) (c_duration row)
                   (c_created_at row) now) id (st_content st))
       (st_res st)).

(** [app.put('/api/content/:id', upload.single('thumbnail'), ...)];
    [file] is the stored name of the uploaded thumbnail, if one was sent,
    and [now] the value of [CURRENT_TIMESTAMP]. *)
Definition update_content_handler (now : string) (id : string)
    (body : update_body) (file : option string) : Api unit :=
  try_catch
    (item <-- content_getById id ;;
     match item with
     | None =>
         api_status 404 ;;;;
         api_json (ApiError "Content not found")
     | Some item =>
         let thumbnailPath :=
           match file with
           | Some filename => Some ("/media/thumbnails/" +:+ filename)
           | None => c_thumbnail item
           end in
         content_update now
           (if truthy (b_title body) then ToString (b_title body)
            else c_title item)
           (if truthy (b_description body) then b_description body
            else c_description item)
           (if truthy (b_genre body) then b_genre body else c_genre item)
           (let y := parseInt_auto (ToString (b_year body)) in
            if number_truthy y then Some y else c_year item)
           thumbnailPath id ;;;;
         api_json (ApiMessage "Content updated successfully")
     end)
    (fun error => api_status 500 ;;;; api_json (ApiErrorOf error)).

Definition update_content (now : string) (fs : filesystem)
    (table : content_table) (id : string) (body : update_body)
    (file : option string) : app_state :=
  (update_content_handler now id body file
     (mkAppState fs table (mkApiResponse 200 None))).2.

(** ** The browser client: sections of the home page *)

(** [allContent.filter(c => c.type === 'movie')] and its twin. *)
Definition movies_of (allContent : list content_row) : list content_row :=
  List.filter (fun c => String.eqb (c_type c) "movie") allContent.

Definition series_of (allContent : list content_row) : list content_row :=
  List.filter (fun c => String.eqb (c_type c) "series") allContent.

(** The page: the loaded content and the [style.display] of elements by
    id. *)
Record page : Type := mkPage {
  allContent : list content_row;
  display : gmap string string
}.

(** [toggleSectionVisibility()]. *)
Definition toggleSectionVisibility (pg : page) : page :=
  let movies := movies_of (allContent pg) in
  let series := series_of (allContent pg) in
  let d1 :=
    <["moviesSection" :=
        if Nat.eqb (length movies) 0 && Nat.ltb 0 (length (allContent pg))
        then "none" else "block"]> (display pg) in
  let d2 :=
    <["seriesSection" :=
        if Nat.eqb (length series) 0 && Nat.ltb 0 (length (allContent pg))
        then "none" else "block"]> d1 in
  mkPage (allContent pg) d2.

(** The [type] column admits two values ([CHECK(type IN ('movie',
    'series'))]). *)
Definition valid_type (c : content_row) : bool :=
  String.eqb (c_type c) "movie" || String.eqb (c_type c) "series".

(** ** A catalog used in examples *)

Definition sample_uuid : string := "3f2b8c1e-0d4a-4f6b-9a57-1c2d3e4f5a6b".

Definition film : content_row :=
  mkContent "m1" "Film" (Some "A film") "movie" (Some "Drama")
    (Some (Num 1999)) (Some "/media/thumbnails/a.jpg")
    (Some "/media/videos/a.mp4") None
    "2024-01-01 10:00:00" "2024-01-01 10:00:00".

Definition serial : content_row :=
  mkContent "s1" "Serial" None "series" None None None None None
    "2024-02-01 10:00:00" "2024-02-01 10:00:00".

Definition catalog : content_table := <["m1" := film]> (<["s1" := serial]> ∅).

(** [disk] with a file and a directory under [public/media]. *)
Definition public_disk : filesystem :=
  <[ ["srv"; "homestream"; "public"; "media"; "videos"; "a.mp4"]
     := File clip ]>
  (<[ ["srv"; "homestream"; "public"; "media"; "thumbnails"; "a.jpg"]
      := Dir 4096 ]> disk).

(** [disk] with the two files of [film] under [public/media]. *)
Definition public_files_disk : filesystem :=
  <[ ["srv"; "homestream"; "public"; "media"; "videos"; "a.mp4"]
     := File clip ]>
  (<[ ["srv"; "homestream"; "public"; "media"; "thumbnails"; "a.jpg"]
      := File script ]> disk).

(** [disk] with the uploads of [film] where the storage writes them. *)
Definition stored_disk : filesystem :=
  <[ ["srv"; "homestream"; "media"; "videos"; "a.mp4"] := File clip ]>
  (<[ ["srv"; "homestream"; "media"; "thumbnails"; "a.jpg"]
      := File script ]> disk).

(** * Properties *)

(** ** Numbers and strings *)

Lemma safe_below_overflow : MAX_SAFE_INTEGER + 1 < DOUBLE_OVERFLOW.
Proof. reflexivity. Qed.

Lemma of_mathint_exact (z : Z) :
  - MAX_SAFE_INTEGER - 1 <= z <= MAX_SAFE_INTEGER + 1 -> of_mathint z = Num z.
Proof.
  intros Hz. pose proof safe_below_overflow as Hlt. unfold of_mathint.
  destruct (Z.leb_spec DOUBLE_OVERFLOW z) as [Hge|_]; [lia|].
  destruct (Z.leb_spec z (- DOUBLE_OVERFLOW)) as [Hle|_]; [lia|].
  reflexivity.
Qed.

Lemma substring_whole (s : string) : String.substring 0 (String.length s) s = s.
Proof. induction s as [|c s IH]; simpl; [reflexivity | now rewrite IH]. Qed.

Lemma append_cons (c : ascii) (s t : string) :
  String c s +:+ t = String c (s +:+ t).
Proof. reflexivity. Qed.

Lemma append_nil (t : string) : "" +:+ t = t.
Proof. reflexivity. Qed.

Lemma append_empty_r (s : string) : s +:+ "" = s.
Proof.
  induction s as [|c s IH]; [reflexivity|].
  rewrite append_cons. f_equal. exact IH.
Qed.

(** Removing the unit prefix of a [Range] value. *)
Lemma replace_bytes_prefix (s : string) :
  replace "bytes=" "" ("bytes=" +:+ s) = s.
Proof.
  rewrite !append_cons, append_nil. simpl.
  assert (String.prefix "" s = true) as -> by (destruct s; reflexivity).
  rewrite ?append_nil, ?Nat.sub_0_r. apply substring_whole.
Qed.

Lemma split_not_nil (sep : ascii) (s : string) : split sep s <> [].
Proof.
  induction s as [|c s IH]; simpl; [discriminate|].
  destruct (Ascii.eqb c sep); [discriminate|].
  destruct (split sep s); [contradiction | discriminate].
Qed.

Lemma to_uint_not_nil (n : N) : N.to_uint n <> Nil.
Proof.
  rewrite <- (DecimalN.Unsigned.of_to n) at 1.
  rewrite DecimalN.Unsigned.to_of. unfold unorm.
  destruct (nzhead (N.to_uint n)); discriminate.
Qed.

(** A run of decimal digits followed by [-] is the first part of a split
    on [-]. *)
Lemma split_digits_dash (d : uint) (r : string) :
  split "-" (NilEmpty.string_of_uint d +:+ String "-" r)
  = NilEmpty.string_of_uint d :: split "-" r.
Proof.
  induction d; cbn [NilEmpty.string_of_uint];
    rewrite ?append_cons, ?append_nil; simpl;
    try (rewrite IHd); reflexivity.
Qed.

Lemma split_digits (d : uint) :
  split "-" (NilEmpty.string_of_uint d) = [NilEmpty.string_of_uint d].
Proof.
  induction d; cbn [NilEmpty.string_of_uint]; simpl;
    try (rewrite IHd); reflexivity.
Qed.

(** Reading back a run of digits that is not followed by a digit. *)
Lemma digit_prefix_digits (d : uint) (r : string) :
  digit_prefix r = Nil ->
  digit_prefix (NilEmpty.string_of_uint d +:+ r) = d.
Proof.
  intros Hr.
  induction d; cbn [NilEmpty.string_of_uint];
    rewrite ?append_cons, ?append_nil; simpl;
    try (rewrite IHd); try reflexivity.
  exact Hr.
Qed.

Lemma digit_prefix_only_digits (d : uint) :
  digit_prefix (NilEmpty.string_of_uint d) = d.
Proof.
  rewrite <- (append_empty_r (NilEmpty.string_of_uint d)).
  now apply digit_prefix_digits.
Qed.

Lemma parseInt_digits (n : N) :
  parseInt (digits_of_N n) = of_mathint (Z.of_N n).
Proof.
  unfold digits_of_N.
  pose proof (to_uint_not_nil n) as Hnil.
  pose proof (DecimalN.Unsigned.of_to n) as Hof.
  destruct (N.to_uint n) as [|d|d|d|d|d|d|d|d|d|d] eqn:E;
    [contradiction|..];
    unfold parseInt; cbn [NilEmpty.string_of_uint skip_whitespace];
    cbn -[digit_prefix N.of_uint of_mathint];
    cbn [digit_prefix digit_of_ascii];
    rewrite digit_prefix_only_digits, Hof; reflexivity.
Qed.

(** [parseInt] inverts the printing of a safe non-negative integer. *)
Lemma parseInt_toString (z : Z) :
  0 <= z <= MAX_SAFE_INTEGER -> parseInt (toString (Num z)) = Num z.
Proof.
  intros Hz. unfold toString.
  destruct (Z.ltb_spec z 0) as [Hneg|_]; [lia|].
  rewrite parseInt_digits, Z2N.id by lia.
  apply of_mathint_exact. lia.
Qed.

Lemma digits_truthy (n : N) : truthy (Some (digits_of_N n)) = true.
Proof.
  unfold digits_of_N. pose proof (to_uint_not_nil n) as Hnil.
  destruct (N.to_uint n); [contradiction|..]; reflexivity.
Qed.

(** ** Running the handler *)

(** Constructing a read stream leaves the response alone; it records the
    stream, on the path it was asked for, exactly when it returns one. *)
Lemma createReadStream_effect (p : path) (o : option (number * number))
    (w : world) :
  res (snd (createReadStream p o w)) = res w /\
  match fst (createReadStream p o w) with
  | Ok rs => rs_path rs = p /\
             fs_calls (snd (createReadStream p o w))
             = (fs_calls w ++ [OpenReadStream rs])%list
  | Throw _ => fs_calls (snd (createReadStream p o w)) = fs_calls w
  end.
Proof.
  unfold createReadStream, bind, log_call, ret, throw.
  repeat case_match; cbn in *; simplify_eq; cbn; auto.
Qed.

Section Runs.

Variable __dirname : path.
Variable fs : filesystem.

(** Nothing at the joined path: 404 with the JSON error, after the
    existence check alone. *)
Lemma serve_not_found (name : string) (range : option string) :
  lookup_path fs (resolved __dirname name) = None ->
  serve __dirname fs (mkRequest name range)
  = (Ok tt,
     mkWorld [ExistsSync (resolved __dirname name)]
       (mkResponse 404 true
          [("Content-Type", HStr "application/json; charset=utf-8")]
          (Some (JsonBody [("error", "Video not found")])))).
Proof.
  intros Hnone. unfold serve, stream_handler, existsSync, bind, log_call, ret.
  cbn [params_filename headers_range fs_calls res initial_world].
  fold (resolved __dirname name). rewrite Hnone.
  rewrite bool_decide_eq_false_2 by (intros [x Hx]; discriminate).
  reflexivity.
Qed.

(** Something at the joined path and a falsy [range]: 200 with the size
    reported by [stat], and a stream over the whole entry. *)
Lemma serve_whole (name : string) (n : node) (range : option string) :
  lookup_path fs (resolved __dirname name) = Some n ->
  truthy range = false ->
  serve __dirname fs (mkRequest name range)
  = (Ok tt,
     mkWorld [ExistsSync (resolved __dirname name); StatSync (resolved __dirname name);
              OpenReadStream (mkReadStream (resolved __dirname name) 0 None)]
       (mkResponse 200 true
          [("Content-Length", HNum (Num (node_size n)));
           ("Content-Type", HStr "video/mp4")]
          (Some (PipedBody (mkReadStream (resolved __dirname name) 0 None))))).
Proof.
  intros Hsome Hfalsy.
  unfold serve, stream_handler, existsSync, statSync, createReadStream,
    bind, log_call, ret.
  cbn [params_filename headers_range fs_calls res initial_world].
  fold (resolved __dirname name). rewrite Hsome, Hfalsy.
  rewrite bool_decide_eq_true_2 by (eexists; reflexivity).
  reflexivity.
Qed.

(** Something at the joined path and a truthy [range]: the outcome is
    decided by [createReadStream] on the parsed offsets. *)
Lemma serve_range (name : string) (n : node) (r : string) :
  lookup_path fs (resolved __dirname name) = Some n ->
  truthy (Some r) = true ->
  let parts := split "-" (replace "bytes=" "" r) in
  let start := parseInt (ToString (parts !! 0%nat)) in
  let end_ := if truthy (parts !! 1%nat)
              then parseInt (ToString (parts !! 1%nat))
              else num_sub (Num (node_size n)) (Num 1) in
  serve __dirname fs (mkRequest name (Some r))
  = match createReadStream (resolved __dirname name) (Some (start, end_))
            (after_stat (resolved __dirname name)) with
    | (Ok file, w) =>
        (Ok tt,
         mkWorld (fs_calls w)
           (mkResponse 206 true
              [("Content-Range",
                HStr ("bytes " +:+ toString start +:+ "-"
                      +:+ toString end_ +:+ "/"
                      +:+ toString (Num (node_size n))));
               ("Accept-Ranges", HStr "bytes");
               ("Content-Length",
                HNum (num_add (num_sub end_ start) (Num 1)));
               ("Content-Type", HStr "video/mp4")]
              (Some (PipedBody file))))
    | (Throw e, w) => (Throw e, w)
    end.
Proof.
  intros Hsome Htruthy parts start end_.
  unfold serve, stream_handler, existsSync, statSync, bind, log_call, ret.
  cbn [params_filename headers_range fs_calls res initial_world].
  fold (resolved __dirname name). rewrite Hsome, Htruthy.
  rewrite bool_decide_eq_true_2 by (eexists; reflexivity).
  cbn [negb ToString app fs_calls res]. fold parts. fold start. fold end_.
  fold (after_stat (resolved __dirname name)).
  destruct (createReadStream (resolved __dirname name) (Some (start, end_))
              (after_stat (resolved __dirname name)))
    as [[file|e] w] eqn:Hcreate; [|reflexivity].
  unfold res_writeHead, pipe, update_res, bind. reflexivity.
Qed.

(** [createReadStream] on two safe offsets in order. *)
Lemma createReadStream_window (p : path) (s e : Z) (w : world) :
  0 <= s <= e -> e <= MAX_SAFE_INTEGER ->
  createReadStream p (Some (Num s, Num e)) w
  = (Ok (mkReadStream p s (Some e)),
     mkWorld (fs_calls w ++ [OpenReadStream (mkReadStream p s (Some e))])
             (res w)).
Proof.
  intros Hse He. unfold createReadStream, is_integer_from.
  rewrite !andb_true_intro by (split; apply Z.leb_le; lia).
  cbn [negb]. destruct (Z.ltb_spec e s) as [Hlt|_]; [lia|].
  reflexivity.
Qed.

End Runs.

(** ** Range headers and the windows they select *)

Lemma toString_nonneg (z : Z) :
  0 <= z -> toString (Num z) = NilEmpty.string_of_uint (N.to_uint (Z.to_N z)).
Proof.
  intros Hz. unfold toString, digits_of_N.
  destruct (Z.ltb_spec z 0) as [Hneg|_]; [lia | reflexivity].
Qed.

Lemma range_parts_window (s e : Z) :
  0 <= s -> 0 <= e ->
  split "-" (replace "bytes=" "" (bytes_range s e))
  = [toString (Num s); toString (Num e)].
Proof.
  intros Hs He. unfold bytes_range.
  rewrite replace_bytes_prefix, !toString_nonneg by assumption.
  rewrite append_cons, append_nil, split_digits_dash, split_digits.
  reflexivity.
Qed.

Lemma range_parts_from (s : Z) :
  0 <= s ->
  split "-" (replace "bytes=" "" (bytes_from s)) = [toString (Num s); ""].
Proof.
  intros Hs. unfold bytes_from.
  rewrite replace_bytes_prefix, toString_nonneg by assumption.
  change "-" with (String "-" ""). rewrite split_digits_dash. reflexivity.
Qed.

Lemma toString_truthy (z : Z) : 0 <= z -> truthy (Some (toString (Num z))) = true.
Proof.
  intros Hz. unfold toString.
  destruct (Z.ltb_spec z 0) as [Hneg|_]; [lia | apply digits_truthy].
Qed.

(** The offsets of a window inside a file are safe integers. *)
Lemma file_size_safe (f : file) : 0 <= file_size f <= MAX_SAFE_INTEGER.
Proof.
  unfold file_size. pose proof (size_safe f) as H.
  apply Z.leb_le in H. lia.
Qed.

Lemma window_is_slice (data : list Byte.byte) (s e : Z) :
  0 <= s <= e -> e < Z.of_nat (length data) ->
  is_slice data (take (Z.to_nat (e - s + 1)) (drop (Z.to_nat s) data)) s e.
Proof.
  intros Hse He. split.
  - rewrite length_take, length_drop. lia.
  - intros i Hi. rewrite length_take in Hi.
    rewrite lookup_take_lt by lia. apply lookup_drop.
Qed.

Section Windows.

Variable __dirname : path.
Variable fs : filesystem.

(** [bytes=<s>-<e>] with safe offsets in order: 206, the offsets as
    sent, and a stream from [s] through [e]. *)
Lemma serve_bytes_range (name : string) (n : node) (s e : Z) :
  lookup_path fs (resolved __dirname name) = Some n ->
  0 <= s <= e -> e <= MAX_SAFE_INTEGER ->
  let p := resolved __dirname name in
  let rs := mkReadStream p s (Some e) in
  serve __dirname fs (mkRequest name (Some (bytes_range s e)))
  = (Ok tt,
     mkWorld [ExistsSync p; StatSync p; OpenReadStream rs]
       (mkResponse 206 true
          [("Content-Range", HStr (content_range s e (node_size n)));
           ("Accept-Ranges", HStr "bytes");
           ("Content-Length", HNum (Num (e - s + 1)));
           ("Content-Type", HStr "video/mp4")]
          (Some (PipedBody rs)))).
Proof.
  intros Hsome Hse He p rs.
  pose proof (serve_range __dirname fs name n (bytes_range s e) Hsome
                eq_refl) as Hrun.
  cbv zeta in Hrun. rewrite Hrun. clear Hrun.
  rewrite range_parts_window by lia.
  cbn [lookup list_lookup ToString].
  rewrite toString_truthy by lia.
  rewrite !parseInt_toString by lia.
  rewrite createReadStream_window by lia.
  cbn [fs_calls app]. unfold content_range, num_sub, num_neg, num_add.
  rewrite !of_mathint_exact by lia.
  repeat f_equal; lia.
Qed.

End Windows.

(** ** Joining paths *)

Lemma normalize_step_ordinary (kept : list string) (seg : string) :
  ordinary seg = true -> normalize_step kept seg = seg :: kept.
Proof.
  unfold ordinary, normalize_step. intros [H1 H2]%andb_prop.
  apply negb_true_iff in H1, H2. now rewrite H1, H2.
Qed.

Lemma normalize_step_keeps (kept : list string) (seg : string) :
  Forall (fun s => ordinary s = true) kept ->
  Forall (fun s => ordinary s = true) (normalize_step kept seg).
Proof.
  intros Hkept. unfold normalize_step.
  destruct (String.eqb seg "" || String.eqb seg ".") eqn:H1; [assumption|].
  destruct (String.eqb seg "..") eqn:H2.
  - destruct kept as [|k kept']; [constructor|]. cbn. now inversion Hkept.
  - constructor; [|assumption]. unfold ordinary. now rewrite H1, H2.
Qed.

Lemma fold_normalize_keeps (l kept : list string) :
  Forall (fun s => ordinary s = true) kept ->
  Forall (fun s => ordinary s = true) (fold_left normalize_step l kept).
Proof.
  revert kept. induction l as [|seg l IH]; intros kept Hkept; cbn;
    [assumption|]. apply IH, normalize_step_keeps, Hkept.
Qed.

Lemma fold_normalize_ordinary (l kept : list string) :
  Forall (fun s => ordinary s = true) l ->
  fold_left normalize_step l kept = (rev l ++ kept)%list.
Proof.
  revert kept. induction l as [|seg l IH]; intros kept Hl; [reflexivity|].
  inversion Hl as [|? ? Hseg Hl']; subst. cbn [fold_left rev].
  rewrite normalize_step_ordinary by assumption.
  rewrite IH by assumption. now rewrite <- app_assoc.
Qed.

(** What [normalize] returns holds ordinary segments only. *)
Lemma normalize_ordinary (l : list string) :
  Forall (fun s => ordinary s = true) (normalize l).
Proof.
  unfold normalize. apply Forall_rev, fold_normalize_keeps. constructor.
Qed.

(** Joining one plain segment onto a normalized path appends it. *)
Lemma normalize_app_plain (l : list string) (seg : string) :
  ordinary seg = true ->
  normalize (normalize l ++ [seg]) = (normalize l ++ [seg])%list.
Proof.
  intros Hseg. unfold normalize at 1.
  rewrite fold_normalize_ordinary.
  - now rewrite app_nil_r, rev_involutive.
  - apply Forall_app. split; [apply normalize_ordinary | now constructor].
Qed.

Lemma split_single_no_slash (s : string) :
  split "/" s = [s] -> ends_with_slash s = false.
Proof.
  induction s as [|c r IH]; [reflexivity|]. cbn [split].
  destruct (Ascii.eqb c "/") eqn:Hc; [discriminate|].
  destruct (split "/" r) as [|p ps] eqn:Hr; [now destruct (split_not_nil "/" r)|].
  intros Heq. injection Heq as Hp Hps. subst p ps.
  cbn [ends_with_slash]. destruct r; [exact Hc | now apply IH].
Qed.

(** A plain name resolves to the entry of that name in the videos
    directory. *)
Lemma resolved_plain (__dirname : path) (name : string) :
  plain_segment name = true ->
  resolved __dirname name
  = Path (segs (videosDir __dirname) ++ [name]) false.
Proof.
  unfold plain_segment. intros [Hord Hsplit]%andb_prop.
  apply bool_decide_eq_true in Hsplit.
  unfold resolved, path_join at 1. rewrite Hsplit.
  assert (Hsegs : normalize (segs (videosDir __dirname) ++ [name])
                  = (segs (videosDir __dirname) ++ [name])%list).
  { unfold videosDir, path_join. cbn [segs].
    now apply normalize_app_plain. }
  rewrite Hsegs. f_equal.
  destruct name as [|c r]; [discriminate|].
  rewrite (split_single_no_slash _ Hsplit). reflexivity.
Qed.

(** A file present in the videos directory is what its name resolves to. *)
Lemma present_resolves (__dirname : path) (fs : filesystem)
    (name : string) (f : file) :
  present_in_videos __dirname fs name f -> resolves_to __dirname fs name f.
Proof.
  intros [Hplain Hfile]. unfold resolves_to.
  rewrite resolved_plain by assumption.
  unfold lookup_path. cbn [segs trailing]. now rewrite Hfile.
Qed.

(** Without a [..] segment, normalization only adds to what is kept. *)
Lemma fold_normalize_no_dotdot (l kept : list string) :
  forallb (fun seg => negb (String.eqb seg "..")) l = true ->
  exists rest, fold_left normalize_step l kept = (rest ++ kept)%list.
Proof.
  revert kept. induction l as [|seg l IH]; intros kept Hl.
  - now exists [].
  - cbn [forallb] in Hl. apply andb_prop in Hl as [Hseg Hl].
    apply negb_true_iff in Hseg. cbn [fold_left].
    destruct (IH (normalize_step kept seg) Hl) as [rest Hrest].
    rewrite Hrest. unfold normalize_step. rewrite Hseg.
    destruct (String.eqb seg "" || String.eqb seg ".").
    + now exists rest.
    + exists (rest ++ [seg])%list. now rewrite <- app_assoc.
Qed.

(** An identifier without a [..] segment resolves to the videos
    directory or below it. *)
Lemma resolved_at_or_below (__dirname : path) (name : string) :
  no_dotdot name = true ->
  at_or_below (videosDir __dirname) (resolved __dirname name).
Proof.
  intros Hname. unfold at_or_below, resolved, path_join at 1. cbn [segs].
  unfold normalize at 1. rewrite fold_left_app.
  assert (Hdir : fold_left normalize_step (segs (videosDir __dirname)) []
                 = rev (segs (videosDir __dirname))).
  { rewrite fold_normalize_ordinary; [apply app_nil_r|].
    unfold videosDir, path_join. cbn [segs]. apply normalize_ordinary. }
  rewrite Hdir.
  destruct (fold_normalize_no_dotdot (split "/" name)
              (rev (segs (videosDir __dirname))) Hname) as [rest Hrest].
  exists (rev rest). now rewrite Hrest, rev_app_distr, rev_involutive.
Qed.

(** ** Every run of the handler *)

Section Cases.

Variable __dirname : path.
Variable fs : filesystem.

(** [bytes=<s>-] with [s] inside the file: the end offset defaults to
    the last byte. *)
Lemma serve_bytes_from (name : string) (f : file) (s : Z) :
  lookup_path fs (resolved __dirname name) = Some (File f) ->
  0 <= s < file_size f ->
  let p := resolved __dirname name in
  let rs := mkReadStream p s (Some (file_size f - 1)) in
  serve __dirname fs (mkRequest name (Some (bytes_from s)))
  = (Ok tt,
     mkWorld [ExistsSync p; StatSync p; OpenReadStream rs]
       (mkResponse 206 true
          [("Content-Range",
            HStr (content_range s (file_size f - 1) (file_size f)));
           ("Accept-Ranges", HStr "bytes");
           ("Content-Length", HNum (Num (file_size f - s)));
           ("Content-Type", HStr "video/mp4")]
          (Some (PipedBody rs)))).
Proof.
  intros Hsome Hs p rs. pose proof (file_size_safe f) as Hsafe.
  pose proof (serve_range __dirname fs name (File f) (bytes_from s) Hsome
                eq_refl) as Hrun.
  cbv zeta in Hrun. rewrite Hrun. clear Hrun.
  rewrite range_parts_from by lia.
  cbn [lookup list_lookup ToString truthy node_size].
  rewrite parseInt_toString by lia.
  unfold num_sub at 1. unfold num_neg, num_add at 1.
  rewrite of_mathint_exact by lia.
  replace (file_size f + - (1)) with (file_size f - 1) by lia.
  rewrite createReadStream_window by lia.
  cbn [fs_calls app res after_stat].
  unfold content_range, num_sub, num_neg, num_add.
  rewrite !of_mathint_exact by lia.
  repeat f_equal; lia.
Qed.

(** A suffix range [bytes=-<k>]: the part before the first [-] is empty,
    [start] is [NaN], and [createReadStream] throws before any header is
    written, whatever exists at the joined path. *)
Lemma serve_suffix_range (name : string) (n : node) (k : Z) :
  lookup_path fs (resolved __dirname name) = Some n ->
  0 <= k ->
  serve __dirname fs
    (mkRequest name (Some ("bytes=" +:+ "-" +:+ toString (Num k))))
  = (Throw (ERR_OUT_OF_RANGE "start"), after_stat (resolved __dirname name)).
Proof.
  intros Hsome Hk.
  pose proof (serve_range __dirname fs name n
                ("bytes=" +:+ "-" +:+ toString (Num k)) Hsome eq_refl)
    as Hrun.
  cbv zeta in Hrun. rewrite Hrun. clear Hrun.
  rewrite replace_bytes_prefix, append_cons, append_nil.
  cbn [split Ascii.eqb Bool.eqb lookup list_lookup ToString].
  change (parseInt "") with NaN. reflexivity.
Qed.

(** The three ways a request ends: nothing at the joined path; a
    response over a read stream; an exception out of
    [createReadStream] before anything is written. *)
Lemma serve_cases (req : request) :
  let p := resolved __dirname (params_filename req) in
  let run := serve __dirname fs req in
  (lookup_path fs p = None /\ run.1 = Ok tt /\
   status_written run.2 = Some 404 /\ fs_calls run.2 = [ExistsSync p])
  \/
  (is_Some (lookup_path fs p) /\ run.1 = Ok tt /\
   (status_written run.2 = Some 200 \/ status_written run.2 = Some 206) /\
   exists rs, rs_path rs = p /\
     fs_calls run.2 = [ExistsSync p; StatSync p; OpenReadStream rs])
  \/
  (is_Some (lookup_path fs p) /\ (exists e, run.1 = Throw e) /\
   status_written run.2 = None /\
   fs_calls run.2 = [ExistsSync p; StatSync p]).
Proof.
  destruct req as [name range]. cbv zeta. cbn [params_filename].
  set (p := resolved __dirname name).
  destruct (lookup_path fs p) as [n|] eqn:Hlook.
  - right. destruct (truthy range) eqn:Htruthy.
    + destruct range as [r|]; [|discriminate].
      pose proof (serve_range __dirname fs name n r Hlook Htruthy) as Hrun.
      cbv zeta in Hrun. rewrite Hrun. clear Hrun.
      match goal with
      | |- context [createReadStream ?q ?o ?w] =>
          pose proof (createReadStream_effect q o w) as [Hres Hcalls];
          destruct (createReadStream q o w) as [[file|e] w'] eqn:Hcreate
      end; cbn [fst snd] in *.
      * left. destruct Hcalls as [Hpath Hcalls].
        split; [eauto|]. split; [reflexivity|]. split; [now right|].
        exists file. split; [exact Hpath | exact Hcalls].
      * right. split; [eauto|]. split; [eauto|]. split; [|exact Hcalls].
        unfold status_written. now rewrite Hres.
    + left. rewrite (serve_whole __dirname fs name n range Hlook Htruthy).
      split; [eauto|]. split; [reflexivity|]. split; [now left|].
      exists (mkReadStream p 0 None). split; reflexivity.
  - left. rewrite (serve_not_found __dirname fs name range Hlook).
    split; [reflexivity|]. split; [reflexivity|]. split; reflexivity.
Qed.

(** The stream piped into the response reads the joined path. *)
Lemma serve_piped_path (req : request) (rs : ReadStream) :
  body (res (serve __dirname fs req).2) = Some (PipedBody rs) ->
  rs_path rs = resolved __dirname (params_filename req).
Proof.
  destruct req as [name range]. cbn [params_filename].
  destruct (lookup_path fs (resolved __dirname name)) as [n|] eqn:Hlook.
  - destruct (truthy range) eqn:Htruthy.
    + destruct range as [r|]; [|discriminate].
      pose proof (serve_range __dirname fs name n r Hlook Htruthy) as Hrun.
      cbv zeta in Hrun. rewrite Hrun. clear Hrun.
      match goal with
      | |- context [createReadStream ?q ?o ?w] =>
          pose proof (createReadStream_effect q o w) as [Hres Hcalls];
          destruct (createReadStream q o w) as [[file|e] w'] eqn:Hcreate
      end; cbn [fst snd res body] in *.
      * intros [= <-]. apply Hcalls.
      * rewrite Hres. discriminate.
    + rewrite (serve_whole __dirname fs name n range Hlook Htruthy).
      cbn [snd res body]. now intros [= <-].
  - rewrite (serve_not_found __dirname fs name range Hlook). discriminate.
Qed.

(** What a read stream delivers is a window of the regular file at its
    path. *)
Lemma stream_bytes_of_file (rs : ReadStream) (data : list Byte.byte) :
  stream_bytes fs rs = Some data ->
  exists f, lookup_path fs (rs_path rs) = Some (File f)
            /\ exists a n, data = take n (drop a (bytes f)).
Proof.
  unfold stream_bytes.
  destruct (lookup_path fs (rs_path rs)) as [[f|sz]|]; try discriminate.
  intros Hdata. exists f. split; [reflexivity|].
  destruct (rs_end rs) as [e|]; injection Hdata as <-.
  - eauto.
  - exists (Z.to_nat (rs_start rs)), (length (bytes f)).
    symmetry. apply take_ge. rewrite length_drop. lia.
Qed.

End Cases.

(** ** The streaming contract *)

Lemma stream_bytes_window (fs : filesystem) (p : path) (f : file) (s e : Z) :
  lookup_path fs p = Some (File f) ->
  stream_bytes fs (mkReadStream p s (Some e))
  = Some (take (Z.to_nat (e - s + 1)) (drop (Z.to_nat s) (bytes f))).
Proof. intros Hsome. unfold stream_bytes. cbn. now rewrite Hsome. Qed.

Section Contract.

Variable __dirname : path.
Variable fs : filesystem.

(** C1. For a file [f] that the request names (by [present_resolves],
    any file present in the videos directory) and offsets
    [0 <= s <= e < size], the request [Range: bytes=<s>-<e>] is answered
    206 with [Content-Length] [e-s+1], [Content-Range]
    [bytes <s>-<e>/<size>], and a body that is the [e-s+1] bytes of the
    file from offset [s] through offset [e]. *)
Theorem range_request_serves_window (name : string) (f : file) (s e : Z) :
  resolves_to __dirname fs name f ->
  0 <= s <= e -> e < file_size f ->
  exists w b,
    serve __dirname fs (mkRequest name (Some (bytes_range s e))) = (Ok tt, w)
    /\ status_written w = Some 206
    /\ header "Content-Length" w = Some (HNum (Num (e - s + 1)))
    /\ header "Content-Range" w
       = Some (HStr (content_range s e (file_size f)))
    /\ body_sent fs w = Some b
    /\ is_slice (bytes f) b s e.
Proof.
  intros Hfile Hse He. pose proof (file_size_safe f) as Hsafe.
  pose proof (serve_bytes_range __dirname fs name (File f) s e Hfile Hse
                ltac:(lia)) as Hrun.
  cbv zeta in Hrun. eexists. eexists. split; [exact Hrun|].
  split; [reflexivity|]. split; [reflexivity|]. split; [reflexivity|].
  split.
  - unfold body_sent. cbn [res body]. apply stream_bytes_window; exact Hfile.
  - apply window_is_slice; [assumption|]. exact He.
Qed.

(** C4. For a file [f] that the request names, a request without a
    [Range] header is answered 200 with [Content-Length] the size of the
    file and the whole file as body. *)
Theorem no_range_serves_whole_file (name : string) (f : file) :
  resolves_to __dirname fs name f ->
  exists w,
    serve __dirname fs (mkRequest name None) = (Ok tt, w)
    /\ status_written w = Some 200
    /\ header "Content-Length" w = Some (HNum (Num (file_size f)))
    /\ body_sent fs w = Some (bytes f).
Proof.
  intros Hfile.
  pose proof (serve_whole __dirname fs name (File f) None Hfile eq_refl)
    as Hrun.
  eexists. split; [exact Hrun|].
  split; [reflexivity|]. split; [reflexivity|].
  unfold body_sent, stream_bytes. cbn. unfold resolves_to in Hfile.
  now rewrite Hfile.
Qed.

(** C5. For a file [f] that the request names, the open-ended request
    [Range: bytes=<s>-] with [0 <= s < size] is answered 206 with
    [Content-Range] [bytes <s>-<size-1>/<size>], [Content-Length]
    [size-s], and the bytes of the file from offset [s] to its last
    byte. *)
Theorem open_ended_range_serves_tail (name : string) (f : file) (s : Z) :
  resolves_to __dirname fs name f ->
  0 <= s < file_size f ->
  exists w b,
    serve __dirname fs (mkRequest name (Some (bytes_from s))) = (Ok tt, w)
    /\ status_written w = Some 206
    /\ header "Content-Range" w
       = Some (HStr (content_range s (file_size f - 1) (file_size f)))
    /\ header "Content-Length" w = Some (HNum (Num (file_size f - s)))
    /\ body_sent fs w = Some b
    /\ b = drop (Z.to_nat s) (bytes f)
    /\ is_slice (bytes f) b s (file_size f - 1).
Proof.
  intros Hfile Hs.
  pose proof (serve_bytes_from __dirname fs name f s Hfile Hs) as Hrun.
  cbv zeta in Hrun. eexists. eexists. split; [exact Hrun|].
  split; [reflexivity|]. split; [reflexivity|]. split; [reflexivity|].
  split; [unfold body_sent; cbn [res body]; apply stream_bytes_window; exact Hfile|].
  split.
  - apply take_ge. rewrite length_drop. unfold file_size. lia.
  - apply window_is_slice; unfold file_size in *; lia.
Qed.

(** C8. On a file of at least 2000 bytes, the body of the request
    [bytes=0-999] followed by the body of the request [bytes=1000-1999]
    is the first 2000 bytes of the file. *)
Theorem sequential_ranges_concatenate (name : string) (f : file) :
  resolves_to __dirname fs name f ->
  2000 <= file_size f ->
  exists w1 w2 b1 b2,
    serve __dirname fs (mkRequest name (Some "bytes=0-999")) = (Ok tt, w1)
    /\ serve __dirname fs (mkRequest name (Some "bytes=1000-1999"))
       = (Ok tt, w2)
    /\ body_sent fs w1 = Some b1
    /\ body_sent fs w2 = Some b2
    /\ (b1 ++ b2)%list = take 2000 (bytes f)
    /\ is_slice (bytes f) (b1 ++ b2) 0 1999.
Proof.
  intros Hfile Hsize. pose proof (file_size_safe f) as Hsafe.
  pose proof (serve_bytes_range __dirname fs name (File f) 0 999 Hfile
                ltac:(lia) ltac:(lia)) as Hrun1.
  pose proof (serve_bytes_range __dirname fs name (File f) 1000 1999 Hfile
                ltac:(lia) ltac:(lia)) as Hrun2.
  cbv zeta in Hrun1, Hrun2.
  change (bytes_range 0 999) with "bytes=0-999" in Hrun1.
  change (bytes_range 1000 1999) with "bytes=1000-1999" in Hrun2.
  do 4 eexists. split; [exact Hrun1|]. split; [exact Hrun2|].
  split; [unfold body_sent; cbn [res body]; apply stream_bytes_window; exact Hfile|].
  split; [unfold body_sent; cbn [res body]; apply stream_bytes_window; exact Hfile|].
  assert (Hcat : (take (Z.to_nat (999 - 0 + 1)) (drop (Z.to_nat 0) (bytes f))
                  ++ take (Z.to_nat (1999 - 1000 + 1))
                       (drop (Z.to_nat 1000) (bytes f)))%list
                 = take 2000 (bytes f)).
  { change (Z.to_nat (999 - 0 + 1)) with 1000%nat.
    change (Z.to_nat (1999 - 1000 + 1)) with 1000%nat.
    change (Z.to_nat 0) with 0%nat. change (Z.to_nat 1000) with 1000%nat.
    rewrite drop_0. apply (take_take_drop (bytes f) 1000 1000). }
  split; [exact Hcat|]. rewrite Hcat.
  pose proof (window_is_slice (bytes f) 0 1999 ltac:(lia)) as Hslice.
  rewrite drop_0 in Hslice. apply Hslice. unfold file_size in Hsize. lia.
Qed.

End Contract.

(** ** Where the handler departs from the streaming contract *)

Section Departures.

Variable __dirname : path.
Variable fs : filesystem.

(** C2, as the handler behaves.  A range [bytes=<s>-<e>] that starts at
    or beyond the end of the file, with [s <= e] safe integers, is
    answered 206 (never 416) with [Content-Range] [bytes <s>-<e>/<size>]
    and [Content-Length] [e-s+1]; a read stream is opened at [s] and
    delivers no byte. *)
Theorem range_beyond_eof_is_206_empty (name : string) (f : file) (s e : Z) :
  resolves_to __dirname fs name f ->
  file_size f <= s <= e -> e <= MAX_SAFE_INTEGER ->
  exists w,
    serve __dirname fs (mkRequest name (Some (bytes_range s e))) = (Ok tt, w)
    /\ status_written w = Some 206
    /\ header "Content-Range" w
       = Some (HStr (content_range s e (file_size f)))
    /\ header "Content-Length" w = Some (HNum (Num (e - s + 1)))
    /\ opened_streams w
       = [mkReadStream (resolved __dirname name) s (Some e)]
    /\ body_sent fs w = Some [].
Proof.
  intros Hfile Hse He. pose proof (file_size_safe f) as Hsafe.
  pose proof (serve_bytes_range __dirname fs name (File f) s e Hfile
                ltac:(lia) He) as Hrun.
  cbv zeta in Hrun. eexists. split; [exact Hrun|].
  split; [reflexivity|]. split; [reflexivity|]. split; [reflexivity|].
  split; [reflexivity|].
  unfold body_sent. cbn [res body].
  rewrite (stream_bytes_window fs _ f s e Hfile).
  rewrite drop_ge by (unfold file_size in Hse; lia).
  now rewrite take_nil.
Qed.

(** C6, as the handler behaves.  An identifier without a [..] segment,
    be it an absolute path or one that holds separators, is resolved by
    [path.join(videosDir, identifier)] to the videos directory or to a
    path below it.  The request starts with an existence check on that
    path and makes every later file-system call on it, so the bytes it
    serves are bytes of the file there, which lies inside the videos
    directory; when nothing exists there the answer is 404. *)
Theorem identifier_without_dotdot_stays_inside (req : request) :
  no_dotdot (params_filename req) = true ->
  let p := path_join (videosDir __dirname) (params_filename req) in
  let w := (serve __dirname fs req).2 in
  at_or_below (videosDir __dirname) p
  /\ (exists rest, fs_calls w = ExistsSync p :: rest
                   /\ Forall (fun c => call_path c = p) rest)
  /\ (forall data, body_sent fs w = Some data ->
        exists f, lookup_path fs p = Some (File f)
          /\ (exists a n, data = take n (drop a (bytes f)))
          /\ (forall sz, fs !! segs (videosDir __dirname) = Some (Dir sz) ->
                         inside (videosDir __dirname) p))
  /\ (lookup_path fs p = None -> status_written w = Some 404).
Proof.
  intros Hname p w. subst w.
  fold (resolved __dirname (params_filename req)) in p.
  pose proof (serve_cases __dirname fs req) as Hcases. cbv zeta in Hcases.
  fold p in Hcases.
  pose proof (resolved_at_or_below __dirname _ Hname) as Hbelow. fold p in Hbelow.
  split; [exact Hbelow|]. split; [|split].
  - destruct Hcases as [(_ & _ & _ & Hcalls)
                       |[(_ & _ & _ & rs & Hpath & Hcalls)
                        |(_ & _ & _ & Hcalls)]];
      rewrite Hcalls; eexists; (split; [reflexivity|]);
      repeat constructor. exact Hpath.
  - intros data Hsent. unfold body_sent in Hsent.
    destruct (body (res (serve __dirname fs req).2)) as [[obj|rs]|] eqn:Hbody;
      try discriminate.
    apply serve_piped_path in Hbody. fold p in Hbody.
    destruct (stream_bytes_of_file fs rs data Hsent) as (f & Hfile & Hwin).
    rewrite Hbody in Hfile. exists f. split; [exact Hfile|].
    split; [exact Hwin|]. intros sz Hdir.
    destruct Hbelow as [rest Hrest]. exists rest. split; [|exact Hrest].
    intros ->. rewrite app_nil_r in Hrest. unfold lookup_path in Hfile.
    rewrite Hrest, Hdir in Hfile. discriminate.
  - intros Hnone.
    destruct Hcases as [(_ & _ & Hstatus & _)
                       |[(Hsome & _)|(Hsome & _)]];
      [exact Hstatus | |]; rewrite Hnone in Hsome; now destruct Hsome.
Qed.

(** C7, as the handler behaves.  When nothing exists at
    [path.join(videosDir, filename)], the answer is 404 with the JSON body
    [{"error": "Video not found"}]; the only file-system call is the
    existence check and no read stream is opened. *)
Theorem missing_path_is_404 (name : string) (range : option string) :
  lookup_path fs (resolved __dirname name) = None ->
  exists w,
    serve __dirname fs (mkRequest name range) = (Ok tt, w)
    /\ status_written w = Some 404
    /\ body (res w) = Some (JsonBody [("error", "Video not found")])
    /\ opened_streams w = []
    /\ fs_calls w = [ExistsSync (resolved __dirname name)].
Proof.
  intros Hnone. eexists.
  split; [exact (serve_not_found __dirname fs name range Hnone)|].
  repeat split.
Qed.

(** C9.  A request either returns having written 200, 206 or 404, or
    throws having written nothing; no run writes 416. *)
Theorem handler_writes_200_206_404 (req : request) :
  let run := serve __dirname fs req in
  ((run.1 = Ok tt /\
    (status_written run.2 = Some 200 \/ status_written run.2 = Some 206
     \/ status_written run.2 = Some 404))
   \/ ((exists e, run.1 = Throw e) /\ status_written run.2 = None))
  /\ status_written run.2 <> Some 416.
Proof.
  intros run. subst run.
  pose proof (serve_cases __dirname fs req) as Hcases. cbv zeta in Hcases.
  destruct Hcases as [(_ & Hok & Hstatus & _)
                     |[(_ & Hok & Hstatus & _)
                      |(_ & Hthrow & Hstatus & _)]].
  - rewrite Hstatus. split; [left; auto | discriminate].
  - split; [left; split; [exact Hok | tauto]|].
    destruct Hstatus as [H|H]; rewrite H; discriminate.
  - rewrite Hstatus. split; [right; auto | discriminate].
Qed.

(** C10, as the handler behaves.  For [bytes=<a>-<b>] with
    [0 <= a < size <= b] and [b] a safe integer, the answer is 206 with
    [Content-Range] [bytes <a>-<b>/<size>] and [Content-Length] [b-a+1]
    (the end offset is not clamped), while the body holds the [size-a]
    bytes from [a] to the end of the file, fewer than declared. *)
Theorem unclamped_end_overstates_length (name : string) (f : file)
    (a b : Z) :
  resolves_to __dirname fs name f ->
  0 <= a < file_size f -> file_size f <= b <= MAX_SAFE_INTEGER ->
  exists w sent,
    serve __dirname fs (mkRequest name (Some (bytes_range a b))) = (Ok tt, w)
    /\ status_written w = Some 206
    /\ header "Content-Range" w
       = Some (HStr (content_range a b (file_size f)))
    /\ header "Content-Length" w = Some (HNum (Num (b - a + 1)))
    /\ body_sent fs w = Some sent
    /\ sent = drop (Z.to_nat a) (bytes f)
    /\ Z.of_nat (length sent) = file_size f - a
    /\ file_size f - a < b - a + 1.
Proof.
  intros Hfile Ha Hb.
  pose proof (serve_bytes_range __dirname fs name (File f) a b Hfile
                ltac:(lia) ltac:(lia)) as Hrun.
  cbv zeta in Hrun. eexists. eexists. split; [exact Hrun|].
  split; [reflexivity|]. split; [reflexivity|]. split; [reflexivity|].
  split; [unfold body_sent; cbn [res body];
          apply stream_bytes_window; exact Hfile|].
  split; [apply take_ge; rewrite length_drop; unfold file_size in *; lia|].
  split; [|lia].
  rewrite take_ge by (rewrite length_drop; unfold file_size in *; lia).
  rewrite length_drop. unfold file_size in *. lia.
Qed.

End Departures.

(** ** The handler on a concrete deployment

    [disk] holds two videos, the videos directory itself and the server
    script two levels above it. *)

Example parseInt_digits_only : parseInt "500" = Num 500.
Proof. reflexivity. Qed.

Example parseInt_empty : parseInt "" = NaN.
Proof. reflexivity. Qed.

Example parseInt_stops_at_junk : parseInt " 12abc" = Num 12.
Proof. reflexivity. Qed.

Example split_suffix_range : split "-" "-500" = [""; "500"].
Proof. reflexivity. Qed.

Example split_open_range : split "-" "0-" = ["0"; ""].
Proof. reflexivity. Qed.

Example replace_first_only :
  replace "bytes=" "" "xbytes=0-bytes=" = "x0-bytes=".
Proof. reflexivity. Qed.

Example videosDir_app_dir :
  videosDir app_dir = Path ["srv"; "homestream"; "media"; "videos"] false.
Proof. reflexivity. Qed.

Example clip_present : present_in_videos app_dir disk "clip.mp4" clip.
Proof. split; vm_compute; reflexivity. Qed.

(** C2 fails as stated: on the 10-byte [clip.mp4], [bytes=10-110] starts at
    the end of the file, yet the answer is 206 with the requested offsets
    echoed, not 416 with [bytes */10], and a read stream is opened. *)
Lemma range_beyond_eof_not_416 :
  resolves_to app_dir disk "clip.mp4" clip /\ file_size clip = 10 /\
  let w := (serve app_dir disk
              (mkRequest "clip.mp4" (Some "bytes=10-110"))).2 in
  status_written w = Some 206
  /\ status_written w <> Some 416
  /\ header "Content-Range" w = Some (HStr "bytes 10-110/10")
  /\ header "Content-Range" w <> Some (HStr "bytes */10")
  /\ opened_streams w <> [].
Proof.
  split; [vm_compute; reflexivity|]. split; [reflexivity|].
  vm_compute. repeat split; discriminate.
Qed.

(** C3 at a failing input: on the 2048-byte [movie.mp4] the suffix range
    [bytes=-500] parses to [start = NaN]; [createReadStream] throws, the
    handler writes no status and no body, and the last 500 bytes are not
    served. *)
Lemma suffix_range_throws :
  resolves_to app_dir disk "movie.mp4" movie /\ file_size movie = 2048 /\
  let run := serve app_dir disk (mkRequest "movie.mp4" (Some "bytes=-500")) in
  run.1 = Throw (ERR_OUT_OF_RANGE "start")
  /\ status_written run.2 = None
  /\ opened_streams run.2 = []
  /\ body_sent disk run.2 = None.
Proof.
  split; [vm_compute; reflexivity|]. split; [reflexivity|].
  vm_compute. repeat split.
Qed.

(** C6 fails as stated: the identifier [../../server.js] is neither
    rejected nor sanitized; it resolves to the server script outside the
    videos directory, whose bytes are served with status 200. *)
Lemma traversal_serves_outside_file :
  let name := "../../server.js" in
  let run := serve app_dir disk (mkRequest name None) in
  resolved app_dir name = Path ["srv"; "homestream"; "server.js"] false
  /\ ~ inside (videosDir app_dir) (resolved app_dir name)
  /\ run.1 = Ok tt
  /\ status_written run.2 = Some 200
  /\ status_written run.2 <> Some 404
  /\ body_sent disk run.2 = Some (bytes script).
Proof.
  cbv zeta. split; [reflexivity|]. split.
  - intros (rest & _ & Hsegs). vm_compute in Hsegs. discriminate.
  - vm_compute. repeat split; discriminate.
Qed.

(** C7 fails as stated: the name [.] resolves to the videos directory,
    which is not a file, yet the answer is 200 and a read stream is
    opened on the directory. *)
Lemma directory_name_is_not_404 :
  let run := serve app_dir disk (mkRequest "." None) in
  (forall f, ~ resolves_to app_dir disk "." f)
  /\ lookup_path disk (resolved app_dir ".") = Some (Dir 4096)
  /\ status_written run.2 = Some 200
  /\ status_written run.2 <> Some 404
  /\ opened_streams run.2 = [mkReadStream (videosDir app_dir) 0 None].
Proof.
  cbv zeta.
  assert (Hdir : lookup_path disk (resolved app_dir ".") = Some (Dir 4096))
    by (vm_compute; reflexivity).
  split; [intros f Hf; unfold resolves_to in Hf; rewrite Hdir in Hf;
          discriminate|].
  split; [exact Hdir|]. vm_compute. repeat split; discriminate.
Qed.

(** C10 fails as stated: with [b = 2^53], one more than the largest safe
    integer, [createReadStream] rejects the end offset and the handler
    throws without writing a 206. *)
Lemma unsafe_end_throws :
  resolves_to app_dir disk "clip.mp4" clip /\
  0 <= 0 < file_size clip /\ file_size clip <= 9007199254740992 /\
  let run := serve app_dir disk
               (mkRequest "clip.mp4" (Some (bytes_range 0 9007199254740992))) in
  run.1 = Throw (ERR_OUT_OF_RANGE "end")
  /\ status_written run.2 = None
  /\ status_written run.2 <> Some 206.
Proof.
  split; [vm_compute; reflexivity|]. split; [vm_compute; split; discriminate || reflexivity|].
  split; [vm_compute; discriminate|].
  vm_compute. repeat split; discriminate.
Qed.

(** ** The theorems at work on the concrete deployment *)

Lemma range_request_serves_window_witness :
  resolves_to app_dir disk "clip.mp4" clip /\ 0 <= 2 <= 5 /\ 5 < file_size clip
  /\ exists w b,
      serve app_dir disk (mkRequest "clip.mp4" (Some (bytes_range 2 5)))
      = (Ok tt, w)
      /\ status_written w = Some 206
      /\ header "Content-Length" w = Some (HNum (Num (5 - 2 + 1)))
      /\ header "Content-Range" w
         = Some (HStr (content_range 2 5 (file_size clip)))
      /\ body_sent disk w = Some b
      /\ is_slice (bytes clip) b 2 5.
Proof.
  assert (Hfile : resolves_to app_dir disk "clip.mp4" clip)
    by (vm_compute; reflexivity).
  assert (Hse : 0 <= 2 <= 5) by lia.
  assert (He : 5 < file_size clip) by (vm_compute; reflexivity).
  split; [exact Hfile|]. split; [exact Hse|]. split; [exact He|].
  exact (range_request_serves_window app_dir disk "clip.mp4" clip 2 5
           Hfile Hse He).
Defined.

Lemma no_range_serves_whole_file_witness :
  resolves_to app_dir disk "clip.mp4" clip
  /\ exists w,
      serve app_dir disk (mkRequest "clip.mp4" None) = (Ok tt, w)
      /\ status_written w = Some 200
      /\ header "Content-Length" w = Some (HNum (Num (file_size clip)))
      /\ body_sent disk w = Some (bytes clip).
Proof.
  assert (Hfile : resolves_to app_dir disk "clip.mp4" clip)
    by (vm_compute; reflexivity).
  split; [exact Hfile|].
  exact (no_range_serves_whole_file app_dir disk "clip.mp4" clip Hfile).
Defined.

Lemma open_ended_range_serves_tail_witness :
  resolves_to app_dir disk "clip.mp4" clip /\ 0 <= 3 < file_size clip
  /\ exists w b,
      serve app_dir disk (mkRequest "clip.mp4" (Some (bytes_from 3)))
      = (Ok tt, w)
      /\ status_written w = Some 206
      /\ header "Content-Range" w
         = Some (HStr (content_range 3 (file_size clip - 1) (file_size clip)))
      /\ header "Content-Length" w = Some (HNum (Num (file_size clip - 3)))
      /\ body_sent disk w = Some b
      /\ b = drop (Z.to_nat 3) (bytes clip)
      /\ is_slice (bytes clip) b 3 (file_size clip - 1).
Proof.
  assert (Hfile : resolves_to app_dir disk "clip.mp4" clip)
    by (vm_compute; reflexivity).
  assert (Hs : 0 <= 3 < file_size clip)
    by (split; [lia | vm_compute; reflexivity]).
  split; [exact Hfile|]. split; [exact Hs|].
  exact (open_ended_range_serves_tail app_dir disk "clip.mp4" clip 3 Hfile Hs).
Defined.

Lemma sequential_ranges_concatenate_witness :
  resolves_to app_dir disk "movie.mp4" movie /\ 2000 <= file_size movie
  /\ exists w1 w2 b1 b2,
      serve app_dir disk (mkRequest "movie.mp4" (Some "bytes=0-999"))
      = (Ok tt, w1)
      /\ serve app_dir disk (mkRequest "movie.mp4" (Some "bytes=1000-1999"))
         = (Ok tt, w2)
      /\ body_sent disk w1 = Some b1
      /\ body_sent disk w2 = Some b2
      /\ (b1 ++ b2)%list = take 2000 (bytes movie)
      /\ is_slice (bytes movie) (b1 ++ b2) 0 1999.
Proof.
  assert (Hfile : resolves_to app_dir disk "movie.mp4" movie)
    by (vm_compute; reflexivity).
  assert (Hsize : 2000 <= file_size movie) by (vm_compute; discriminate).
  split; [exact Hfile|]. split; [exact Hsize|].
  exact (sequential_ranges_concatenate app_dir disk "movie.mp4" movie
           Hfile Hsize).
Defined.

Lemma range_beyond_eof_is_206_empty_witness :
  resolves_to app_dir disk "clip.mp4" clip
  /\ file_size clip <= 10 <= 110 /\ 110 <= MAX_SAFE_INTEGER
  /\ exists w,
      serve app_dir disk (mkRequest "clip.mp4" (Some (bytes_range 10 110)))
      = (Ok tt, w)
      /\ status_written w = Some 206
      /\ header "Content-Range" w
         = Some (HStr (content_range 10 110 (file_size clip)))
      /\ header "Content-Length" w = Some (HNum (Num (110 - 10 + 1)))
      /\ opened_streams w
         = [mkReadStream (resolved app_dir "clip.mp4") 10 (Some 110)]
      /\ body_sent disk w = Some [].
Proof.
  assert (Hfile : resolves_to app_dir disk "clip.mp4" clip)
    by (vm_compute; reflexivity).
  assert (Hse : file_size clip <= 10 <= 110)
    by (split; vm_compute; discriminate).
  assert (He : 110 <= MAX_SAFE_INTEGER) by (vm_compute; discriminate).
  split; [exact Hfile|]. split; [exact Hse|]. split; [exact He|].
  exact (range_beyond_eof_is_206_empty app_dir disk "clip.mp4" clip 10 110
           Hfile Hse He).
Defined.

Lemma identifier_without_dotdot_stays_inside_witness :
  no_dotdot "/clip.mp4" = true
  /\ (let p := path_join (videosDir app_dir) "/clip.mp4" in
      let w := (serve app_dir disk (mkRequest "/clip.mp4" None)).2 in
      at_or_below (videosDir app_dir) p
      /\ (exists rest, fs_calls w = ExistsSync p :: rest
                       /\ Forall (fun c => call_path c = p) rest)
      /\ (forall data, body_sent disk w = Some data ->
            exists f, lookup_path disk p = Some (File f)
              /\ (exists a n, data = take n (drop a (bytes f)))
              /\ (forall sz, disk !! segs (videosDir app_dir) = Some (Dir sz) ->
                             inside (videosDir app_dir) p))
      /\ (lookup_path disk p = None -> status_written w = Some 404))
  /\ body_sent disk (serve app_dir disk (mkRequest "/clip.mp4" None)).2
     = Some (bytes clip).
Proof.
  assert (Hname : no_dotdot "/clip.mp4" = true) by reflexivity.
  split; [exact Hname|]. split; [|vm_compute; reflexivity].
  exact (identifier_without_dotdot_stays_inside app_dir disk
           (mkRequest "/clip.mp4" None) Hname).
Defined.

Lemma missing_path_is_404_witness :
  lookup_path disk (resolved app_dir "missing.mp4") = None
  /\ exists w,
      serve app_dir disk (mkRequest "missing.mp4" (Some "bytes=0-99"))
      = (Ok tt, w)
      /\ status_written w = Some 404
      /\ body (res w) = Some (JsonBody [("error", "Video not found")])
      /\ opened_streams w = []
      /\ fs_calls w = [ExistsSync (resolved app_dir "missing.mp4")].
Proof.
  assert (Hnone : lookup_path disk (resolved app_dir "missing.mp4") = None)
    by (vm_compute; reflexivity).
  split; [exact Hnone|].
  exact (missing_path_is_404 app_dir disk "missing.mp4" (Some "bytes=0-99")
           Hnone).
Defined.

Lemma unclamped_end_overstates_length_witness :
  resolves_to app_dir disk "clip.mp4" clip
  /\ 0 <= 3 < file_size clip /\ file_size clip <= 20 <= MAX_SAFE_INTEGER
  /\ exists w sent,
      serve app_dir disk (mkRequest "clip.mp4" (Some (bytes_range 3 20)))
      = (Ok tt, w)
      /\ status_written w = Some 206
      /\ header "Content-Range" w
         = Some (HStr (content_range 3 20 (file_size clip)))
      /\ header "Content-Length" w = Some (HNum (Num (20 - 3 + 1)))
      /\ body_sent disk w = Some sent
      /\ sent = drop (Z.to_nat 3) (bytes clip)
      /\ Z.of_nat (length sent) = file_size clip - 3
      /\ file_size clip - 3 < 20 - 3 + 1.
Proof.
  assert (Hfile : resolves_to app_dir disk "clip.mp4" clip)
    by (vm_compute; reflexivity).
  assert (Ha : 0 <= 3 < file_size clip)
    by (split; [lia | vm_compute; reflexivity]).
  assert (Hb : file_size clip <= 20 <= MAX_SAFE_INTEGER)
    by (split; vm_compute; discriminate).
  split; [exact Hfile|]. split; [exact Ha|]. split; [exact Hb|].
  exact (unclamped_end_overstates_length app_dir disk "clip.mp4" clip 3 20
           Hfile Ha Hb).
Defined.

(** * Further properties of the streaming handler *)

Lemma replace_digits (d : uint) (r : string) :
  replace "bytes=" "" (NilEmpty.string_of_uint d +:+ r)
  = NilEmpty.string_of_uint d +:+ replace "bytes=" "" r.
Proof.
  induction d; cbn [NilEmpty.string_of_uint];
    rewrite ?append_cons, ?append_nil; try reflexivity;
    cbn [replace String.prefix Ascii.eqb Bool.eqb]; cbn;
    rewrite IHd; reflexivity.
Qed.

Lemma replace_dash (r : string) :
  replace "bytes=" "" (String "-" r) = String "-" (replace "bytes=" "" r).
Proof. reflexivity. Qed.

(** Printed numbers never hold the unit prefix. *)
Lemma replace_offsets (s e : Z) :
  0 <= s -> 0 <= e ->
  replace "bytes=" "" (toString (Num s) +:+ "-" +:+ toString (Num e))
  = toString (Num s) +:+ "-" +:+ toString (Num e).
Proof.
  intros Hs He. rewrite !toString_nonneg by assumption.
  rewrite replace_digits, append_cons, append_nil, replace_dash.
  rewrite <- (append_empty_r (NilEmpty.string_of_uint (N.to_uint (Z.to_N e))))
    at 1.
  rewrite replace_digits. cbn [replace String.prefix].
  now rewrite append_empty_r.
Qed.

Lemma append_assoc (a b c : string) : (a +:+ b) +:+ c = a +:+ b +:+ c.
Proof.
  induction a as [|x a IH]; [reflexivity|].
  rewrite !append_cons. f_equal. exact IH.
Qed.

Lemma split_digits_app (d : uint) (r : string) :
  split "-" (NilEmpty.string_of_uint d +:+ r)
  = (NilEmpty.string_of_uint d +:+ hd "" (split "-" r)) :: tl (split "-" r).
Proof.
  induction d; cbn [NilEmpty.string_of_uint];
    rewrite ?append_cons, ?append_nil;
    try (cbn [split Ascii.eqb Bool.eqb]; cbn; rewrite IHd; reflexivity).
  destruct (split "-" r) eqn:E; [now destruct (split_not_nil "-" r)|].
  reflexivity.
Qed.

Lemma first_part_no_digit (tail : string) :
  starts_with_digit tail = false ->
  digit_prefix (hd "" (split "-" tail)) = Nil.
Proof.
  destruct tail as [|c r]; [reflexivity|]. cbn [starts_with_digit split].
  intros Hc. apply bool_decide_eq_false in Hc.
  destruct (Ascii.eqb c "-"); [reflexivity|].
  destruct (split "-" r); cbn [hd digit_prefix];
    destruct (digit_of_ascii c); try reflexivity; destruct Hc; eauto.
Qed.

Lemma parseInt_digits_then (n : N) (r : string) :
  digit_prefix r = Nil ->
  parseInt (digits_of_N n +:+ r) = of_mathint (Z.of_N n).
Proof.
  intros Hr. unfold digits_of_N.
  pose proof (to_uint_not_nil n) as Hnil.
  pose proof (DecimalN.Unsigned.of_to n) as Hof.
  destruct (N.to_uint n) as [|d|d|d|d|d|d|d|d|d|d] eqn:E;
    [contradiction|..];
    unfold parseInt; cbn [NilEmpty.string_of_uint];
    rewrite append_cons; cbn [skip_whitespace];
    cbn -[digit_prefix N.of_uint of_mathint append];
    cbn [digit_prefix digit_of_ascii];
    rewrite (digit_prefix_digits d r Hr), Hof; reflexivity.
Qed.

Section RangeForms.

Variable __dirname : path.
Variable fs : filesystem.

(** Two truthy headers that split into the same offsets are served
    alike. *)
Lemma serve_same_offsets (name r1 r2 : string) :
  truthy (Some r1) = true -> truthy (Some r2) = true ->
  let parts1 := split "-" (replace "bytes=" "" r1) in
  let parts2 := split "-" (replace "bytes=" "" r2) in
  parseInt (ToString (parts1 !! 0%nat)) = parseInt (ToString (parts2 !! 0%nat)) ->
  truthy (parts1 !! 1%nat) = truthy (parts2 !! 1%nat) ->
  (truthy (parts1 !! 1%nat) = true ->
   parseInt (ToString (parts1 !! 1%nat))
   = parseInt (ToString (parts2 !! 1%nat))) ->
  serve __dirname fs (mkRequest name (Some r1))
  = serve __dirname fs (mkRequest name (Some r2)).
Proof.
  intros H1 H2 parts1 parts2 Hstart Htruthy Hend.
  destruct (lookup_path fs (resolved __dirname name)) as [n|] eqn:Hlook.
  - pose proof (serve_range __dirname fs name n r1 Hlook H1) as Hrun1.
    pose proof (serve_range __dirname fs name n r2 Hlook H2) as Hrun2.
    cbv zeta in Hrun1, Hrun2. rewrite Hrun1, Hrun2.
    fold parts1. fold parts2. rewrite <- Hstart, <- Htruthy.
    destruct (truthy (parts1 !! 1%nat)); [|reflexivity].
    now rewrite <- Hend.
  - now rewrite !serve_not_found.
Qed.

(** X1. A range without a dash, [bytes=<s>], is served exactly as the
    open-ended [bytes=<s>-]: the missing second part makes the end offset
    default to the last byte. *)
Theorem range_without_dash_is_open_ended (name : string) (s : Z) :
  0 <= s ->
  serve __dirname fs (mkRequest name (Some ("bytes=" +:+ toString (Num s))))
  = serve __dirname fs (mkRequest name (Some (bytes_from s))).
Proof.
  intros Hs. apply serve_same_offsets; try reflexivity;
    rewrite range_parts_from by assumption;
    rewrite replace_bytes_prefix, toString_nonneg, split_digits by assumption;
    [reflexivity | reflexivity | discriminate].
Qed.

(** X2. The unit prefix is optional: [<s>-<e>] is served exactly as
    [bytes=<s>-<e>]. *)
Theorem range_without_unit_is_accepted (name : string) (s e : Z) :
  0 <= s -> 0 <= e ->
  serve __dirname fs
    (mkRequest name (Some (toString (Num s) +:+ "-" +:+ toString (Num e))))
  = serve __dirname fs (mkRequest name (Some (bytes_range s e))).
Proof.
  intros Hs He.
  assert (Hparts : split "-" (replace "bytes=" ""
                     (toString (Num s) +:+ "-" +:+ toString (Num e)))
                   = [toString (Num s); toString (Num e)]).
  { rewrite replace_offsets by assumption.
    rewrite <- (replace_bytes_prefix
                  (toString (Num s) +:+ "-" +:+ toString (Num e))).
    now apply range_parts_window. }
  apply serve_same_offsets.
  - rewrite toString_nonneg by assumption. unfold truthy.
    pose proof (to_uint_not_nil (Z.to_N s)) as Hnil.
    destruct (N.to_uint (Z.to_N s)); [contradiction|..]; reflexivity.
  - reflexivity.
  - now rewrite Hparts, range_parts_window.
  - now rewrite Hparts, range_parts_window.
  - intros _. now rewrite Hparts, range_parts_window.
Qed.

(** X3. Whatever follows the end offset is ignored, provided it does not
    begin with a digit: [bytes=<s>-<e><tail>] is served exactly as
    [bytes=<s>-<e>].  In particular only the first range of a multi-range
    header such as [bytes=0-99,200-299] is served. *)
Theorem text_after_end_offset_is_ignored (name tail : string) (s e : Z) :
  0 <= s -> 0 <= e -> starts_with_digit tail = false ->
  serve __dirname fs
    (mkRequest name
       (Some ("bytes=" +:+ toString (Num s) +:+ "-" +:+ toString (Num e)
              +:+ tail)))
  = serve __dirname fs (mkRequest name (Some (bytes_range s e))).
Proof.
  intros Hs He Htail.
  assert (Hparts : split "-" (replace "bytes=" ""
                     ("bytes=" +:+ toString (Num s) +:+ "-"
                      +:+ toString (Num e) +:+ tail))
                   = toString (Num s)
                     :: (toString (Num e) +:+ hd "" (split "-" tail))
                     :: tl (split "-" tail)).
  { rewrite replace_bytes_prefix, !toString_nonneg by assumption.
    rewrite append_cons, append_nil, split_digits_dash, split_digits_app.
    reflexivity. }
  assert (Hend : parseInt (toString (Num e) +:+ hd "" (split "-" tail))
                 = parseInt (toString (Num e))).
  { unfold toString. destruct (Z.ltb_spec e 0) as [Hneg|_]; [lia|].
    rewrite parseInt_digits_then by now apply first_part_no_digit.
    now rewrite parseInt_digits. }
  apply serve_same_offsets; try reflexivity;
    rewrite Hparts, range_parts_window by assumption;
    cbn [lookup list_lookup ToString].
  - reflexivity.
  - rewrite toString_truthy by assumption.
    rewrite toString_nonneg by assumption.
    pose proof (to_uint_not_nil (Z.to_N e)) as Hnil.
    destruct (N.to_uint (Z.to_N e)); [contradiction|..]; reflexivity.
  - intros _. exact Hend.
Qed.

End RangeForms.

Section Outcomes.

Variable __dirname : path.
Variable fs : filesystem.

(** X4. A reversed range [bytes=<s>-<e>] with [e < s], on any existing
    path, makes [createReadStream] throw: nothing is written and no
    stream is opened. *)
Theorem reversed_range_throws (name : string) (n : node) (s e : Z) :
  lookup_path fs (resolved __dirname name) = Some n ->
  0 <= e < s -> s <= MAX_SAFE_INTEGER ->
  serve __dirname fs (mkRequest name (Some (bytes_range s e)))
  = (Throw (ERR_OUT_OF_RANGE "start"), after_stat (resolved __dirname name)).
Proof.
  intros Hsome He Hs.
  pose proof (serve_range __dirname fs name n (bytes_range s e) Hsome
                eq_refl) as Hrun.
  cbv zeta in Hrun. rewrite Hrun. clear Hrun.
  rewrite range_parts_window by lia.
  cbn [lookup list_lookup ToString].
  rewrite toString_truthy by lia.
  rewrite !parseInt_toString by lia.
  unfold createReadStream, is_integer_from.
  rewrite !andb_true_intro by (split; apply Z.leb_le; lia).
  cbn [negb]. destruct (Z.ltb_spec e s) as [_|Hge]; [reflexivity | lia].
Qed.

(** X5. A suffix range [bytes=-<k>] is never served: on any existing
    path the empty start offset parses to [NaN], [createReadStream]
    throws, and the handler has written nothing and opened no stream. *)
Theorem suffix_range_is_rejected (name : string) (n : node) (k : Z) :
  lookup_path fs (resolved __dirname name) = Some n ->
  0 <= k ->
  let run := serve __dirname fs
               (mkRequest name (Some ("bytes=" +:+ "-" +:+ toString (Num k)))) in
  run.1 = Throw (ERR_OUT_OF_RANGE "start")
  /\ status_written run.2 = None
  /\ opened_streams run.2 = [].
Proof.
  intros Hsome Hk. cbv zeta.
  rewrite (serve_suffix_range __dirname fs name n k Hsome Hk).
  repeat split.
Qed.

(** The response object at the end of a request has one of four shapes. *)
Lemma serve_response_shapes (req : request) :
  let r := res (serve __dirname fs req).2 in
  r = mkResponse 404 true
        [("Content-Type", HStr "application/json; charset=utf-8")]
        (Some (JsonBody [("error", "Video not found")]))
  \/ (exists sz rs,
        r = mkResponse 200 true
              [("Content-Length", HNum sz); ("Content-Type", HStr "video/mp4")]
              (Some (PipedBody rs)))
  \/ (exists cr cl rs,
        r = mkResponse 206 true
              [("Content-Range", HStr cr); ("Accept-Ranges", HStr "bytes");
               ("Content-Length", HNum cl); ("Content-Type", HStr "video/mp4")]
              (Some (PipedBody rs)))
  \/ r = mkResponse 200 false [] None.
Proof.
  destruct req as [name range]. cbv zeta.
  destruct (lookup_path fs (resolved __dirname name)) as [n|] eqn:Hlook.
  - destruct (truthy range) eqn:Htruthy.
    + destruct range as [r|]; [|discriminate].
      pose proof (serve_range __dirname fs name n r Hlook Htruthy) as Hrun.
      cbv zeta in Hrun. rewrite Hrun. clear Hrun.
      match goal with
      | |- context [createReadStream ?q ?o ?w] =>
          pose proof (createReadStream_effect q o w) as [Hres _];
          destruct (createReadStream q o w) as [[file|e] w'] eqn:Hcreate
      end; cbn [fst snd res] in *.
      * right. right. left. eauto.
      * right. right. right. exact Hres.
    + rewrite (serve_whole __dirname fs name n range Hlook Htruthy).
      right. left. cbn [snd res]. eauto.
  - rewrite (serve_not_found __dirname fs name range Hlook). now left.
Qed.

(** X6. A request without a usable [Range] header (absent or empty) never
    throws: it returns having written 200 or 404. *)
Theorem request_without_range_returns (name : string) (range : option string) :
  truthy range = false ->
  let run := serve __dirname fs (mkRequest name range) in
  run.1 = Ok tt
  /\ (status_written run.2 = Some 200 \/ status_written run.2 = Some 404).
Proof.
  intros Hfalsy. cbv zeta.
  destruct (lookup_path fs (resolved __dirname name)) as [n|] eqn:Hlook.
  - rewrite (serve_whole __dirname fs name n range Hlook Hfalsy).
    split; [reflexivity | now left].
  - rewrite (serve_not_found __dirname fs name range Hlook).
    split; [reflexivity | now right].
Qed.

(** X7. [Accept-Ranges: bytes] is sent with a 206 answer and with no
    other: a 200 answer does not advertise range support. *)
Theorem accept_ranges_only_on_206 (req : request) :
  let w := (serve __dirname fs req).2 in
  (status_written w = Some 206 ->
   header "Accept-Ranges" w = Some (HStr "bytes"))
  /\ (status_written w <> Some 206 -> header "Accept-Ranges" w = None).
Proof.
  cbv zeta. pose proof (serve_response_shapes req) as Hshape.
  cbv zeta in Hshape. unfold status_written, header.
  destruct Hshape as [H|[(sz & rs & H)|[(cr & cl & rs & H)|H]]];
    rewrite H; cbn; split; intros Hs; try reflexivity;
    try discriminate; now destruct Hs.
Qed.

(** X8. Every 200 or 206 answer declares [Content-Type: video/mp4],
    whatever the name or extension of the file. *)
Theorem content_type_is_always_mp4 (req : request) :
  let w := (serve __dirname fs req).2 in
  status_written w = Some 200 \/ status_written w = Some 206 ->
  header "Content-Type" w = Some (HStr "video/mp4").
Proof.
  cbv zeta. pose proof (serve_response_shapes req) as Hshape.
  cbv zeta in Hshape. unfold status_written, header.
  destruct Hshape as [H|[(sz & rs & H)|[(cr & cl & rs & H)|H]]];
    rewrite H; cbn; intros [Hs|Hs]; try reflexivity; discriminate.
Qed.

(** A stream delivers bytes exactly when reading it does not fail. *)
Lemma stream_bytes_iff_no_error (rs : ReadStream) :
  is_Some (stream_bytes fs rs) <-> stream_error fs rs = None.
Proof.
  unfold stream_bytes, stream_error, lookup_path.
  destruct (fs !! segs (rs_path rs)) as [[f|sz]|];
    [destruct (trailing (rs_path rs)); [|destruct (rs_end rs)]| |];
    split; intros H; try reflexivity; try discriminate; try (now destruct H);
    eexists; reflexivity.
Qed.

(** X9. A name that resolves to a directory is not told apart from a
    file.  Without a range the handler returns having called
    [writeHead(200)] with the size [stat] reports for the directory as
    [Content-Length] and having piped a read stream opened on the
    directory.  Reading that stream fails with EISDIR, an ['error'] event
    nobody listens to: the request ends in an uncaught exception and
    nothing of the response is sent. *)
Theorem directory_request_ends_uncaught (name : string) (sz : Z)
    (range : option string) :
  lookup_path fs (resolved __dirname name) = Some (Dir sz) ->
  truthy range = false ->
  let p := resolved __dirname name in
  let run := serve __dirname fs (mkRequest name range) in
  run.1 = Ok tt
  /\ statusCode (res run.2) = 200
  /\ header "Content-Length" run.2 = Some (HNum (Num sz))
  /\ opened_streams run.2 = [mkReadStream p 0 None]
  /\ body (res run.2) = Some (PipedBody (mkReadStream p 0 None))
  /\ uncaught_error fs run.2 = Some (ReadEISDIR p)
  /\ response_sent fs run.2 = false
  /\ body_sent fs run.2 = None.
Proof.
  intros Hdir Hfalsy. cbv zeta.
  rewrite (serve_whole __dirname fs name (Dir sz) range Hdir Hfalsy).
  assert (Hnode : fs !! segs (resolved __dirname name) = Some (Dir sz)).
  { unfold lookup_path in Hdir.
    destruct (fs !! segs (resolved __dirname name)) as [[f|sz']|];
      [destruct (trailing _); discriminate | exact Hdir | discriminate]. }
  repeat (split; [reflexivity|]).
  unfold uncaught_error, response_sent, body_sent, stream_error, stream_bytes.
  cbn [snd res body rs_path]. rewrite Hnode, Hdir.
  repeat split.
Qed.

End Outcomes.

(** * Upload storage, recorded paths and the client *)

Lemma no_slash_app (a b : string) :
  no_slash (a +:+ b) = no_slash a && no_slash b.
Proof.
  unfold no_slash. induction a as [|c a IH]; [reflexivity|].
  rewrite append_cons. cbn [list_ascii_of_string forallb].
  rewrite IH. now rewrite andb_assoc.
Qed.

Lemma no_slash_split (s : string) : no_slash s = true -> split "/" s = [s].
Proof.
  unfold no_slash. induction s as [|c s IH]; [reflexivity|].
  cbn [list_ascii_of_string forallb split].
  intros [Hc Hs]%andb_prop. apply negb_true_iff in Hc. rewrite Hc.
  now rewrite IH.
Qed.

(** The scan of [extname] only ever collects characters other than [/]. *)
Lemma extname_loop_no_slash (backwards : list ascii) (st : extname_state) :
  no_slash (es_taken st) = true -> no_slash (es_ext st) = true ->
  no_slash (es_ext (extname_loop backwards st)) = true.
Proof.
  revert st. induction backwards as [|c rest IH]; intros st Htaken Hext;
    [exact Hext|].
  cbn [extname_loop]. destruct (Ascii.eqb c "/") eqn:Hc.
  - destruct (negb (es_matchedSlash st)); [exact Hext | now apply IH].
  - assert (Hnew : no_slash (String c (es_taken st)) = true).
    { unfold no_slash in *. cbn [list_ascii_of_string forallb].
      now rewrite Hc, Htaken. }
    destruct (Ascii.eqb c "."); [destruct (negb (es_startDot st))|
                                 destruct (es_startDot st)];
      apply IH; assumption.
Qed.

(** An extension holds no path separator. *)
Lemma extname_no_slash (p : string) : no_slash (extname p) = true.
Proof.
  unfold extname.
  match goal with |- context [if ?b then _ else _] => destruct b end;
    [reflexivity|].
  now apply extname_loop_no_slash.
Qed.

Lemma uuid_like_no_slash (u : string) : uuid_like u = true -> no_slash u = true.
Proof.
  unfold uuid_like, no_slash. intros [_ Hall]%andb_prop.
  induction (list_ascii_of_string u) as [|c l IH]; [reflexivity|].
  cbn [forallb] in *. apply andb_prop in Hall as [Hc Hl].
  rewrite (IH Hl), andb_true_r.
  destruct (Ascii.eqb_spec c "/") as [->|_]; [discriminate | reflexivity].
Qed.

(** Every name the storage gives an upload, whatever the original name
    sent by the client, is one plain path segment. *)
Lemma storage_filename_plain (uuid originalname : string) :
  uuid_like uuid = true ->
  plain_segment (storage_filename uuid originalname) = true.
Proof.
  intros Huuid. pose proof (uuid_like_no_slash uuid Huuid) as Hns.
  unfold plain_segment, storage_filename. apply andb_true_intro. split.
  - unfold uuid_like in Huuid. apply andb_prop in Huuid as [Hne Hall].
    destruct uuid as [|c u]; [discriminate|].
    cbn [list_ascii_of_string forallb] in Hall.
    apply andb_prop in Hall as [Hc _]. rewrite append_cons.
    unfold ordinary. cbn [String.eqb].
    destruct (Ascii.eqb_spec c ".") as [->|_]; [discriminate | reflexivity].
  - apply bool_decide_eq_true. apply no_slash_split.
    now rewrite no_slash_app, Hns, extname_no_slash.
Qed.

Lemma last_split_slash (d n : string) :
  no_slash n = true -> last (split "/" (d +:+ "/" +:+ n)) = Some n.
Proof.
  intros Hn. induction d as [|c d IH].
  - rewrite append_nil, append_cons, append_nil. cbn [split Ascii.eqb Bool.eqb].
    cbn. now rewrite (no_slash_split n Hn).
  - rewrite append_cons. cbn [split].
    destruct (Ascii.eqb c "/").
    + cbn [last]. destruct (split "/" (d +:+ "/" +:+ n)) eqn:E;
        [discriminate | exact IH].
    + destruct (split "/" (d +:+ "/" +:+ n)) as [|p ps] eqn:E; [discriminate|].
      destruct ps as [|q ps].
      * exfalso. clear IH.
        assert (Hlen : (2 <= length (split "/" (d +:+ "/" +:+ n)))%nat).
        { clear E. induction d as [|x d IHd].
          - rewrite append_nil, append_cons. cbn [split Ascii.eqb Bool.eqb].
            cbn. destruct (split "/" ("" +:+ n)) eqn:E2;
              [now destruct (split_not_nil "/" ("" +:+ n)) | cbn; lia].
          - rewrite append_cons. cbn [split].
            destruct (Ascii.eqb x "/"); [cbn; lia|].
            destruct (split "/" (d +:+ "/" +:+ n)); cbn in *; lia. }
        rewrite E in Hlen. cbn in Hlen. lia.
      * exact IH.
Qed.

(** X11. The client's [video_path.split('/').pop()] returns what follows
    the last [/]: for [<dir>/<name>] with a name free of [/] it is
    [<name>], in particular for every path the upload handlers record. *)
Theorem client_filename_is_last_segment (dir name : string) :
  no_slash name = true ->
  client_filename (dir +:+ "/" +:+ name) = name.
Proof.
  intros Hn. unfold client_filename. now rewrite last_split_slash.
Qed.

Lemma normalize_app_ordinary (l m : list string) :
  Forall (fun s => ordinary s = true) m ->
  normalize (l ++ m) = (normalize l ++ m)%list.
Proof.
  intros Hm. unfold normalize.
  rewrite fold_left_app, fold_normalize_ordinary by assumption.
  now rewrite rev_app_distr, rev_involutive.
Qed.

Lemma videosDir_segs (__dirname : path) :
  segs (videosDir __dirname)
  = (normalize (segs __dirname) ++ ["media"; "videos"])%list.
Proof.
  unfold videosDir, mediaDir, path_join. cbn [segs].
  change (split "/" "videos") with ["videos"].
  change (split "/" "media") with ["media"].
  rewrite normalize_app_plain by reflexivity.
  rewrite normalize_app_ordinary by (repeat constructor).
  now rewrite <- app_assoc.
Qed.

Lemma thumbnailsDir_segs (__dirname : path) :
  segs (thumbnailsDir __dirname)
  = (normalize (segs __dirname) ++ ["media"; "thumbnails"])%list.
Proof.
  unfold thumbnailsDir, mediaDir, path_join. cbn [segs].
  change (split "/" "thumbnails") with ["thumbnails"].
  change (split "/" "media") with ["media"].
  rewrite normalize_app_plain by reflexivity.
  rewrite normalize_app_ordinary by (repeat constructor).
  now rewrite <- app_assoc.
Qed.

(** Where an upload with a plain name is written. *)
Lemma stored_at_plain (__dirname : path) (fieldname name : string) :
  plain_segment name = true ->
  stored_at __dirname fieldname name
  = Path (segs (storage_destination __dirname fieldname) ++ [name]) false.
Proof.
  unfold plain_segment. intros [Hord Hsplit]%andb_prop.
  apply bool_decide_eq_true in Hsplit.
  unfold stored_at, path_join at 1. rewrite Hsplit.
  assert (Hsegs : normalize (segs (storage_destination __dirname fieldname)
                             ++ [name])
                  = (segs (storage_destination __dirname fieldname)
                     ++ [name])%list).
  { unfold storage_destination.
    destruct (String.eqb fieldname "thumbnail");
      unfold thumbnailsDir, videosDir, path_join; cbn [segs];
      now apply normalize_app_plain. }
  rewrite Hsegs. f_equal.
  destruct name as [|c r]; [discriminate|].
  rewrite (split_single_no_slash _ Hsplit). reflexivity.
Qed.

(** X12. An upload cannot leave its destination directory: whatever
    original name the client sends, the file is written as the entry
    [<uuid><extension>] directly inside the directory chosen for its
    field. *)
Theorem upload_stays_in_destination (__dirname : path)
    (fieldname uuid originalname : string) :
  uuid_like uuid = true ->
  let name := storage_filename uuid originalname in
  stored_at __dirname fieldname name
  = Path (segs (storage_destination __dirname fieldname) ++ [name]) false
  /\ inside (storage_destination __dirname fieldname)
            (stored_at __dirname fieldname name).
Proof.
  intros Huuid name.
  pose proof (storage_filename_plain uuid originalname Huuid) as Hplain.
  fold name in Hplain. rewrite (stored_at_plain _ _ _ Hplain).
  split; [reflexivity|]. exists [name]. split; [discriminate | reflexivity].
Qed.

Lemma url_unreserved_app (a b : string) :
  url_unreserved (a +:+ b) = url_unreserved a && url_unreserved b.
Proof.
  unfold url_unreserved. induction a as [|c a IH]; [reflexivity|].
  rewrite append_cons. cbn [list_ascii_of_string forallb].
  rewrite IH. now rewrite andb_assoc.
Qed.

(** The characters of a uuid are unreserved. *)
Lemma uuid_like_unreserved (u : string) :
  uuid_like u = true -> url_unreserved u = true.
Proof.
  unfold uuid_like, url_unreserved. intros [_ Hall]%andb_prop.
  induction (list_ascii_of_string u) as [|c l IH]; [reflexivity|].
  cbn [forallb] in *. apply andb_prop in Hall as [Hc Hl].
  rewrite (IH Hl), andb_true_r. clear -Hc.
  destruct c as [[] [] [] [] [] [] [] []]; try discriminate Hc; reflexivity.
Qed.

Section UploadAndPlay.

Variable __dirname : path.
Variable fs : filesystem.

(** X10. An uploaded video whose extension is made of unreserved URL
    characters can be played back.  Let [name] be the name the storage
    gives the upload ([uuid] from [uuidv4()]) and let multer write the
    file [f] at [path.join(destination, name)].  The upload handler
    records [/media/videos/<name>]; the client extracts the file name
    from that record and writes it, not encoded, into the URL of the
    player.  Whatever carries a name of unreserved characters unchanged
    to the route parameter hands [name] to the stream handler, which
    without a range answers 200 with the bytes of [f], read from the
    videos directory. *)
Theorem uploaded_video_streams_back (transport : string -> option string)
    (uuid originalname : string) (f : file) :
  carries_unreserved transport ->
  uuid_like uuid = true ->
  url_unreserved (extname originalname) = true ->
  let name := storage_filename uuid originalname in
  let disk' := <[segs (stored_at __dirname "video" name) := File f]> fs in
  recorded_video_path (Some name) = Some ("/media/videos/" +:+ name)
  /\ stored_at __dirname "video" name
     = Path (segs (videosDir __dirname) ++ [name]) false
  /\ exists received w,
      transport (client_filename ("/media/videos/" +:+ name)) = Some received
      /\ serve __dirname disk' (mkRequest received None) = (Ok tt, w)
      /\ status_written w = Some 200
      /\ header "Content-Length" w = Some (HNum (Num (file_size f)))
      /\ uncaught_error disk' w = None
      /\ response_sent disk' w = true
      /\ body_sent disk' w = Some (bytes f).
Proof.
  intros Htransport Huuid Hext name disk'.
  pose proof (storage_filename_plain uuid originalname Huuid) as Hplain.
  fold name in Hplain.
  assert (Hns : no_slash name = true).
  { unfold name, storage_filename.
    now rewrite no_slash_app, uuid_like_no_slash, extname_no_slash. }
  assert (Hclient : client_filename ("/media/videos/" +:+ name) = name).
  { unfold client_filename.
    change ("/media/videos/" +:+ name)
      with ("/media/videos" +:+ "/" +:+ name).
    now rewrite last_split_slash. }
  assert (Hstored : stored_at __dirname "video" name
                    = Path (segs (videosDir __dirname) ++ [name]) false).
  { now rewrite stored_at_plain. }
  assert (Hreceived : transport name = Some name).
  { unfold plain_segment, ordinary in Hplain.
    apply andb_prop in Hplain as [Hord _].
    apply andb_prop in Hord as [Hne Hdd].
    apply negb_true_iff, orb_false_elim in Hne as [Hempty Hdot].
    apply negb_true_iff in Hdd.
    apply Htransport.
    - unfold name, storage_filename.
      now rewrite url_unreserved_app, uuid_like_unreserved, Hext.
    - intros E. rewrite E in Hempty. discriminate.
    - intros E. rewrite E in Hdot. discriminate.
    - intros E. rewrite E in Hdd. discriminate. }
  split.
  - unfold recorded_video_path. destruct name; [discriminate | reflexivity].
  - split; [exact Hstored|]. rewrite Hclient. exists name.
    assert (Hlook : lookup_path disk' (resolved __dirname name)
                    = Some (File f)).
    { rewrite resolved_plain by assumption. unfold lookup_path, disk'.
      rewrite Hstored. cbn [segs trailing]. now rewrite lookup_insert_eq. }
    assert (Hnode : disk' !! segs (resolved __dirname name) = Some (File f)
                    /\ trailing (resolved __dirname name) = false).
    { rewrite resolved_plain by assumption. unfold disk'.
      rewrite Hstored. cbn [segs trailing]. now rewrite lookup_insert_eq. }
    destruct Hnode as [Hnode Htrail].
    clearbody disk' name. eexists. split; [exact Hreceived|]. split;
      [exact (serve_whole __dirname disk' name (File f) None Hlook eq_refl)|].
    split; [reflexivity|]. split; [reflexivity|].
    unfold uncaught_error, response_sent, body_sent, stream_error,
      stream_bytes.
    cbn [res body rs_path rs_start rs_end]. rewrite Hnode, Htrail, Hlook.
    repeat split.
Qed.

End UploadAndPlay.

(** * Deleting content *)

Section Deleting.

Variable __dirname : path.

(** The delete handler, step by step. *)
Lemma delete_content_steps (fs : filesystem) (table : content_table)
    (id : string) :
  delete_content __dirname fs table id
  = match table !! id with
    | None =>
        mkAppState fs table
          (mkApiResponse 404 (Some (ApiError "Content not found")))
    | Some item =>
        match unlink_step __dirname fs (c_video_path item) with
        | inr e => mkAppState fs table (mkApiResponse 500 (Some (ApiErrorOf e)))
        | inl fs1 =>
            match unlink_step __dirname fs1 (c_thumbnail item) with
            | inr e =>
                mkAppState fs1 table (mkApiResponse 500 (Some (ApiErrorOf e)))
            | inl fs2 =>
                mkAppState fs2 (delete id table)
                  (mkApiResponse 200
                     (Some (ApiMessage "Content deleted successfully")))
            end
        end
    end.
Proof.
  unfold delete_content, delete_content_handler, try_catch, api_bind,
    content_getById, unlink_step, unlink_if_exists, api_existsSync,
    api_unlinkSync, api_bind, api_ret, content_delete, api_status, api_json.
  cbn [st_content st_fs st_res fst snd].
  destruct (table !! id) as [item|]; [|reflexivity].
  destruct (truthy (c_video_path item)); cbn [st_content st_fs st_res];
    [destruct (lookup_path fs (public_path __dirname
                                 (ToString (c_video_path item))))
       as [[f|sz]|] eqn:Hv|];
    rewrite ?bool_decide_eq_true_2 by eauto;
    rewrite ?bool_decide_eq_false_2 by (intros [x Hx]; discriminate);
    cbn [st_content st_fs st_res]; rewrite ?Hv;
    cbn [st_content st_fs st_res]; try reflexivity;
    (destruct (truthy (c_thumbnail item)); cbn [st_content st_fs st_res];
     [|reflexivity]);
    match goal with
    | |- context [lookup_path ?m ?q] =>
        destruct (lookup_path m q) as [[f'|sz']|] eqn:Ht
    end;
    rewrite ?bool_decide_eq_true_2 by eauto;
    rewrite ?bool_decide_eq_false_2 by (intros [x Hx]; discriminate);
    cbn [st_content st_fs st_res]; rewrite ?Ht; reflexivity.
Qed.

Lemma unlink_step_inl (fs fs1 : filesystem) (v : option string) :
  unlink_step __dirname fs v = inl fs1 ->
  fs1 = fs
  \/ (truthy v = true
      /\ fs1 = delete (segs (public_path __dirname (ToString v))) fs).
Proof.
  unfold unlink_step. destruct (truthy v); [|intros [= <-]; now left].
  destruct (lookup_path fs _) as [[f|sz]|]; intros [= <-]; auto.
Qed.

Lemma unlink_step_inr (fs : filesystem) (v : option string) (e : unlink_error) :
  unlink_step __dirname fs v = inr e ->
  truthy v = true
  /\ e = EISDIR (public_path __dirname (ToString v))
  /\ exists sz,
       lookup_path fs (public_path __dirname (ToString v)) = Some (Dir sz).
Proof.
  unfold unlink_step. destruct (truthy v); [|discriminate].
  destruct (lookup_path fs _) as [[f|sz]|]; intros [= <-]; eauto.
Qed.

(** An unknown id is answered 404 [{ error: 'Content not found' }];
    neither the file system nor the table changes. *)
Lemma delete_unknown_id_is_404 (fs : filesystem) (table : content_table)
    (id : string) :
  table !! id = None ->
  delete_content __dirname fs table id
  = mkAppState fs table
      (mkApiResponse 404 (Some (ApiError "Content not found"))).
Proof. intros Hnone. now rewrite delete_content_steps, Hnone. Qed.

(** X13. The row is deleted exactly when the answer is 200: then only the
    row of that id leaves the table.  A 404 answer (unknown id) and a 500
    answer (an unlink threw) leave the table as it was. *)
Theorem delete_removes_row_iff_200 (fs : filesystem) (table : content_table)
    (id : string) :
  let st := delete_content __dirname fs table id in
  (api_statusCode (st_res st) = 200 /\ is_Some (table !! id)
   /\ st_content st = delete id table
   /\ api_sent (st_res st)
      = Some (ApiMessage "Content deleted successfully"))
  \/ (api_statusCode (st_res st) = 404 /\ table !! id = None
      /\ st_content st = table /\ st_fs st = fs)
  \/ (api_statusCode (st_res st) = 500 /\ is_Some (table !! id)
      /\ st_content st = table
      /\ exists e, api_sent (st_res st) = Some (ApiErrorOf e)).
Proof.
  cbv zeta. rewrite delete_content_steps.
  destruct (table !! id) as [item|]; [|right; left; auto].
  destruct (unlink_step __dirname fs (c_video_path item)) as [fs1|e];
    [|right; right; cbn; eauto 6].
  destruct (unlink_step __dirname fs1 (c_thumbnail item)) as [fs2|e];
    [left; cbn; auto | right; right; cbn; eauto 6].
Qed.

(** What the delete handler does to one path of the file system. *)
Lemma delete_frame (fs : filesystem)
    (table : content_table) (id : string) (k : list string) :
  let st := delete_content __dirname fs table id in
  st_fs st !! k = fs !! k
  \/ (st_fs st !! k = None
      /\ exists item, table !! id = Some item
                      /\ k ∈ map segs (delete_targets __dirname item)).
Proof.
  cbv zeta. rewrite delete_content_steps.
  destruct (table !! id) as [item|]; [|now left].
  assert (Hin_v : truthy (c_video_path item) = true ->
                  segs (public_path __dirname (ToString (c_video_path item)))
                  ∈ map segs (delete_targets __dirname item)).
  { intros Ht. unfold delete_targets. rewrite Ht, map_app.
    apply elem_of_app. left. cbn. apply list_elem_of_here. }
  assert (Hin_t : truthy (c_thumbnail item) = true ->
                  segs (public_path __dirname (ToString (c_thumbnail item)))
                  ∈ map segs (delete_targets __dirname item)).
  { intros Ht. unfold delete_targets. rewrite Ht, map_app.
    apply elem_of_app. right. cbn. apply list_elem_of_here. }
  assert (Hstep : forall m m1 v,
             unlink_step __dirname m v = inl m1 ->
             (truthy v = true ->
              segs (public_path __dirname (ToString v))
              ∈ map segs (delete_targets __dirname item)) ->
             m1 !! k = m !! k
             \/ (m1 !! k = None
                 /\ k ∈ map segs (delete_targets __dirname item))).
  { intros m m1 v Hv Hin. apply unlink_step_inl in Hv as [->|(Ht & ->)];
      [now left|].
    destruct (decide (segs (public_path __dirname (ToString v)) = k))
      as [<-|Hne].
    - right. split; [apply lookup_delete_eq | now apply Hin].
    - left. now apply lookup_delete_ne. }
  destruct (unlink_step __dirname fs (c_video_path item)) as [fs1|e] eqn:Hv;
    [|now left].
  pose proof (Hstep fs fs1 _ Hv Hin_v) as H1.
  destruct (unlink_step __dirname fs1 (c_thumbnail item)) as [fs2|e] eqn:Ht;
    cbn [st_fs].
  - pose proof (Hstep fs1 fs2 _ Ht Hin_t) as H2.
    destruct H2 as [H2|[H2 Hk]]; [|right; eauto].
    rewrite H2. destruct H1 as [H1|[H1 Hk]]; [now left | right; eauto].
  - destruct H1 as [H1|[H1 Hk]]; [now left | right; eauto].
Qed.

(** X14. The handler changes the file system only by removing entries,
    and only at [path.join(__dirname, 'public', video_path)] and
    [path.join(__dirname, 'public', thumbnail)] of the row: every other
    path keeps what it held, and nothing is created anywhere. *)
Theorem delete_touches_only_its_targets (fs : filesystem)
    (table : content_table) (id : string) (k : list string) :
  let st := delete_content __dirname fs table id in
  (is_Some (st_fs st !! k) -> st_fs st !! k = fs !! k)
  /\ ((forall item, table !! id = Some item ->
                    k ∉ map segs (delete_targets __dirname item)) ->
      st_fs st !! k = fs !! k).
Proof.
  cbv zeta. destruct (delete_frame fs table id k)
    as [Hsame|(Hgone & item & Hitem & Hin)].
  - split; intros; exact Hsame.
  - split.
    + rewrite Hgone. intros [x Hx]. discriminate.
    + intros Hnot. now destruct (Hnot item Hitem).
Qed.

End Deleting.

Lemma normalize_fixed (l : list string) :
  Forall (fun s => ordinary s = true) l -> normalize l = l.
Proof.
  intros Hl. unfold normalize.
  now rewrite fold_normalize_ordinary, app_nil_r, rev_involutive.
Qed.

(** Where the delete handler looks for a recorded media path. *)
Lemma public_path_recorded (__dirname : path) (dir name : string) :
  ordinary dir = true -> no_slash dir = true ->
  plain_segment name = true ->
  segs (public_path __dirname ("/media/" +:+ dir +:+ "/" +:+ name))
  = (normalize (segs __dirname) ++ ["public"; "media"; dir; name])%list.
Proof.
  intros Hdir Hdns [Hord Hsplit]%andb_prop.
  apply bool_decide_eq_true in Hsplit.
  unfold public_path, path_join. cbn [segs].
  change (split "/" "public") with ["public"].
  assert (Hparts : split "/" ("/media/" +:+ dir +:+ "/" +:+ name)
                   = [""; "media"; dir; name]).
  { rewrite !append_cons, append_nil. cbn [split Ascii.eqb Bool.eqb]. cbn.
    assert (Hd : forall r, split "/" (dir +:+ String "/" r)
                           = dir :: split "/" r).
    { clear -Hdns. unfold no_slash in Hdns.
      induction dir as [|c d IH]; intros r; [reflexivity|].
      cbn [list_ascii_of_string forallb] in Hdns.
      apply andb_prop in Hdns as [Hc Hd]. apply negb_true_iff in Hc.
      rewrite append_cons. cbn [split]. now rewrite Hc, IH. }
    rewrite Hd, append_nil, Hsplit. reflexivity. }
  rewrite Hparts.
  rewrite (normalize_app_ordinary (segs __dirname) ["public"])
    by (repeat constructor).
  set (D := (normalize (segs __dirname) ++ ["public"])%list).
  assert (HD : Forall (fun s => ordinary s = true) D).
  { apply Forall_app. split; [apply normalize_ordinary | repeat constructor]. }
  unfold normalize at 1. rewrite fold_left_app.
  rewrite (fold_normalize_ordinary D []) by exact HD.
  cbn [fold_left]. unfold normalize_step at 4. cbn [String.eqb orb].
  rewrite (normalize_step_ordinary _ "media") by reflexivity.
  rewrite (normalize_step_ordinary _ dir) by assumption.
  rewrite (normalize_step_ordinary _ name) by assumption.
  cbn [rev]. rewrite app_nil_r, rev_involutive. subst D.
  now rewrite <- !app_assoc.
Qed.

Lemma stored_at_segs (__dirname : path) (fieldname name : string) :
  plain_segment name = true ->
  exists dir,
    segs (stored_at __dirname fieldname name)
    = (normalize (segs __dirname) ++ ["media"; dir; name])%list.
Proof.
  intros Hplain. rewrite stored_at_plain by assumption. cbn [segs].
  unfold storage_destination. destruct (String.eqb fieldname "thumbnail").
  - exists "thumbnails". now rewrite thumbnailsDir_segs, <- app_assoc.
  - exists "videos". now rewrite videosDir_segs, <- app_assoc.
Qed.

Section DeletingUploads.

Variable __dirname : path.

(** X15. When neither target of the row is a directory, the answer is
    200, the row is gone and nothing is left at either target. *)
Theorem delete_succeeds_on_files (fs : filesystem) (table : content_table)
    (id : string) (item : content_row) :
  table !! id = Some item ->
  (forall p sz, p ∈ delete_targets __dirname item ->
                lookup_path fs p <> Some (Dir sz)) ->
  let st := delete_content __dirname fs table id in
  api_statusCode (st_res st) = 200
  /\ st_content st !! id = None
  /\ forall p, p ∈ delete_targets __dirname item ->
               lookup_path (st_fs st) p = None.
Proof.
  intros Hitem Hnodir. cbv zeta. rewrite delete_content_steps, Hitem.
  assert (Hgone : forall (m : filesystem) q p,
             lookup_path m p = None \/ segs p = q ->
             (forall sz, lookup_path m p <> Some (Dir sz)) ->
             lookup_path (delete q m) p = None).
  { intros m q p Hp Hq. unfold lookup_path in *.
    destruct (decide (q = segs p)) as [->|Hne].
    - now rewrite lookup_delete_eq.
    - rewrite lookup_delete_ne by exact Hne.
      destruct Hp as [Hp|Hp]; [exact Hp | now destruct Hne]. }
  assert (Hkeep : forall (m : filesystem) q p,
             lookup_path m p = None -> lookup_path (delete q m) p = None).
  { intros m q p Hp. unfold lookup_path in *.
    destruct (decide (q = segs p)) as [->|Hne];
      [now rewrite lookup_delete_eq | now rewrite lookup_delete_ne]. }
  assert (Hnodir' : forall (m : filesystem) q p sz,
             lookup_path m p <> Some (Dir sz) ->
             lookup_path (delete q m) p <> Some (Dir sz)).
  { intros m q p sz Hp. unfold lookup_path in *.
    destruct (decide (q = segs p)) as [->|Hne];
      [now rewrite lookup_delete_eq | now rewrite lookup_delete_ne]. }
  unfold delete_targets in *. unfold unlink_step.
  destruct (truthy (c_video_path item)) eqn:Hv;
    destruct (truthy (c_thumbnail item)) eqn:Ht; cbn [app] in *.
  - set (pv := public_path __dirname (ToString (c_video_path item))) in *.
    set (pt := public_path __dirname (ToString (c_thumbnail item))) in *.
    assert (Hpv : forall sz, lookup_path fs pv <> Some (Dir sz))
      by (intros sz; apply Hnodir; set_solver).
    assert (Hpt : forall sz, lookup_path fs pt <> Some (Dir sz))
      by (intros sz; apply Hnodir; set_solver).
    destruct (lookup_path fs pv) as [[f|sz]|] eqn:Hlv;
      [|now destruct (Hpv sz)|].
    + destruct (lookup_path (delete (segs pv) fs) pt) as [[f'|sz']|] eqn:Hlt.
      * cbn [st_res st_content st_fs api_statusCode]. split; [reflexivity|]. split; [apply lookup_delete_eq|].
        intros p Hp. apply elem_of_cons in Hp as [->|Hp];
          [|apply list_elem_of_singleton in Hp as ->].
        -- apply Hkeep, Hgone; [now right|]. intros sz. rewrite Hlv.
           discriminate.
        -- apply Hgone; [now right|]. intros sz. rewrite Hlt. discriminate.
      * now destruct (Hnodir' fs (segs pv) pt sz' (Hpt sz')).
      * cbn [st_res st_content st_fs api_statusCode]. split; [reflexivity|]. split; [apply lookup_delete_eq|].
        intros p Hp. apply elem_of_cons in Hp as [->|Hp];
          [|apply list_elem_of_singleton in Hp as ->].
        -- apply Hgone; [now right|]. intros sz. rewrite Hlv. discriminate.
        -- exact Hlt.
    + destruct (lookup_path fs pt) as [[f'|sz']|] eqn:Hlt;
        [|now destruct (Hpt sz')|].
      * cbn [st_res st_content st_fs api_statusCode]. split; [reflexivity|]. split; [apply lookup_delete_eq|].
        intros p Hp. apply elem_of_cons in Hp as [->|Hp];
          [|apply list_elem_of_singleton in Hp as ->].
        -- now apply Hkeep.
        -- apply Hgone; [now right|]. intros sz. rewrite Hlt. discriminate.
      * cbn [st_res st_content st_fs api_statusCode]. split; [reflexivity|]. split; [apply lookup_delete_eq|].
        intros p Hp. apply elem_of_cons in Hp as [->|Hp];
          [|apply list_elem_of_singleton in Hp as ->]; assumption.
  - set (pv := public_path __dirname (ToString (c_video_path item))) in *.
    assert (Hpv : forall sz, lookup_path fs pv <> Some (Dir sz))
      by (intros sz; apply Hnodir; set_solver).
    destruct (lookup_path fs pv) as [[f|sz]|] eqn:Hlv;
      [|now destruct (Hpv sz)|];
      cbn [st_res st_content st_fs api_statusCode]; (split; [reflexivity|]); (split; [apply lookup_delete_eq|]);
      intros p Hp; apply list_elem_of_singleton in Hp as ->.
    + apply Hgone; [now right|]. intros sz. rewrite Hlv. discriminate.
    + exact Hlv.
  - set (pt := public_path __dirname (ToString (c_thumbnail item))) in *.
    assert (Hpt : forall sz, lookup_path fs pt <> Some (Dir sz))
      by (intros sz; apply Hnodir; set_solver).
    destruct (lookup_path fs pt) as [[f|sz]|] eqn:Hlt;
      [|now destruct (Hpt sz)|];
      cbn [st_res st_content st_fs api_statusCode]; (split; [reflexivity|]); (split; [apply lookup_delete_eq|]);
      intros p Hp; apply list_elem_of_singleton in Hp as ->.
    + apply Hgone; [now right|]. intros sz. rewrite Hlt. discriminate.
    + exact Hlt.
  - cbn [st_res st_content st_fs api_statusCode]. split; [reflexivity|].
    split; [apply lookup_delete_eq|].
    intros p Hp. now apply elem_of_nil in Hp.
Qed.

(** X16. Deletion is not atomic.  When the video target is a file and the
    thumbnail target is a directory, the answer is 500 and the row stays in
    the table, but the video file has already been removed. *)
Theorem delete_fails_after_removing_video (fs : filesystem)
    (table : content_table) (id : string) (item : content_row)
    (f : file) (sz : Z) :
  table !! id = Some item ->
  truthy (c_video_path item) = true -> truthy (c_thumbnail item) = true ->
  let pv := public_path __dirname (ToString (c_video_path item)) in
  let pt := public_path __dirname (ToString (c_thumbnail item)) in
  lookup_path fs pv = Some (File f) ->
  lookup_path fs pt = Some (Dir sz) ->
  let st := delete_content __dirname fs table id in
  st_res st = mkApiResponse 500 (Some (ApiErrorOf (EISDIR pt)))
  /\ st_content st = table
  /\ lookup_path (st_fs st) pv = None.
Proof.
  intros Hitem Hv Ht pv pt Hlv Hlt. cbv zeta.
  rewrite delete_content_steps, Hitem. unfold unlink_step.
  rewrite Hv, Ht. fold pv. fold pt. rewrite Hlv.
  assert (Hne : segs pv <> segs pt).
  { intros Heq. unfold lookup_path in Hlv, Hlt. rewrite Heq in Hlv.
    destruct (fs !! segs pt) as [[g|s]|]; try discriminate.
    destruct (trailing pv), (trailing pt); discriminate. }
  assert (Hlt' : lookup_path (delete (segs pv) fs) pt = Some (Dir sz)).
  { unfold lookup_path in *. now rewrite lookup_delete_ne. }
  rewrite Hlt'. cbn [st_res st_content st_fs].
  split; [reflexivity|]. split; [reflexivity|].
  unfold lookup_path. now rewrite lookup_delete_eq.
Qed.

(** X17. Deleting content never removes an uploaded file.  For a row
    whose video and thumbnail paths are as the upload handlers record
    them, the handler looks under [<__dirname>/public/media/...], while
    uploads are stored under [<__dirname>/media/...]: whatever the storage
    wrote, for any field and any stored name, is still there after the
    request. *)
Theorem delete_leaves_uploads_in_place (fs : filesystem)
    (table : content_table) (id : string) (item : content_row)
    (video thumbnail : option string) (fieldname name : string) :
  table !! id = Some item ->
  c_video_path item = recorded_video_path video ->
  c_thumbnail item = recorded_thumbnail_path thumbnail ->
  match video with Some v => plain_segment v = true | None => True end ->
  match thumbnail with Some t => plain_segment t = true | None => True end ->
  plain_segment name = true ->
  st_fs (delete_content __dirname fs table id)
    !! segs (stored_at __dirname fieldname name)
  = fs !! segs (stored_at __dirname fieldname name).
Proof.
  intros Hitem Hvideo Hthumb Hpv Hpt Hname.
  destruct (delete_frame __dirname fs table id
              (segs (stored_at __dirname fieldname name)))
    as [Hsame|(_ & item' & Hitem' & Hin)]; [exact Hsame|].
  exfalso. rewrite Hitem in Hitem'. injection Hitem' as Heq. subst item'.
  destruct (stored_at_segs __dirname fieldname name Hname) as (dir & Hstored).
  rewrite Hstored in Hin. unfold delete_targets in Hin.
  rewrite Hvideo, Hthumb in Hin.
  assert (Hdiff : forall d x,
             (normalize (segs __dirname) ++ ["media"; dir; name])%list
             <> (normalize (segs __dirname) ++ ["public"; "media"; d; x])%list).
  { intros d x Heq. apply app_inv_head in Heq. discriminate. }
  unfold recorded_video_path, recorded_thumbnail_path in Hin.
  rewrite map_app in Hin. apply elem_of_app in Hin as [Hin|Hin].
  - destruct video as [v|]; [|cbn in Hin; now apply elem_of_nil in Hin].
    destruct (truthy (Some v)) eqn:Hv;
      [|cbn in Hin; now apply elem_of_nil in Hin].
    cbn [truthy ToString map] in Hin.
    apply list_elem_of_singleton in Hin.
    change ("/media/videos/" +:+ v)
      with ("/media/" +:+ "videos" +:+ "/" +:+ v) in Hin.
    rewrite public_path_recorded in Hin by (reflexivity || assumption).
    now apply Hdiff in Hin.
  - destruct thumbnail as [t|]; [|cbn in Hin; now apply elem_of_nil in Hin].
    destruct (truthy (Some t)) eqn:Ht;
      [|cbn in Hin; now apply elem_of_nil in Hin].
    cbn [truthy ToString map] in Hin.
    apply list_elem_of_singleton in Hin.
    change ("/media/thumbnails/" +:+ t)
      with ("/media/" +:+ "thumbnails" +:+ "/" +:+ t) in Hin.
    rewrite public_path_recorded in Hin by (reflexivity || assumption).
    now apply Hdiff in Hin.
Qed.

End DeletingUploads.

(** * The upload filter *)

Lemma extname_loop_app (a b : list ascii) (st : extname_state) :
  forallb (fun c => negb (Ascii.eqb c "/")) a = true ->
  extname_loop (a ++ b) st = extname_loop b (extname_loop a st).
Proof.
  revert st. induction a as [|c a IH]; intros st Ha; [reflexivity|].
  cbn [forallb] in Ha. apply andb_prop in Ha as [Hc Ha].
  apply negb_true_iff in Hc. cbn [app extname_loop]. rewrite Hc.
  destruct (Ascii.eqb c "."); [destruct (negb (es_startDot st))|
                               destruct (es_startDot st)];
    now apply IH.
Qed.

(** Scanning characters other than [.] finds no dot and leaves the
    pre-dot state alone. *)
Lemma extname_loop_no_dot (backwards : list ascii) (st : extname_state) :
  forallb (fun c => negb (Ascii.eqb c ".")) backwards = true ->
  es_startDot st = false ->
  es_startDot (extname_loop backwards st) = false
  /\ es_preDot (extname_loop backwards st) = es_preDot st.
Proof.
  revert st. induction backwards as [|c rest IH]; intros st Hall Hst;
    [now split|].
  cbn [forallb] in Hall. apply andb_prop in Hall as [Hc Hrest].
  apply negb_true_iff in Hc. cbn [extname_loop]. rewrite Hc, Hst.
  destruct (Ascii.eqb c "/").
  - destruct (negb (es_matchedSlash st)); [now split | now apply IH].
  - pose proof (IH (mkExtnameState true false false (es_preDot st)
                      (String c (es_taken st)) (es_ext st) (es_before st))
                  Hrest eq_refl) as [H1 H2].
    split; assumption.
Qed.

Lemma forallb_rev {A} (P : A -> bool) (l : list A) :
  forallb P (rev l) = forallb P l.
Proof.
  induction l as [|x l IH]; [reflexivity|].
  cbn [rev forallb]. rewrite forallb_app, IH. cbn [forallb].
  now rewrite andb_true_r, andb_comm.
Qed.

(** A path without a dot has no extension. *)
Lemma extname_no_dot (p : string) : no_dot p = true -> extname p = "".
Proof.
  intros Hp. unfold extname, no_dot in *.
  destruct (extname_loop_no_dot (rev (list_ascii_of_string p)) extname_init)
    as [Hdot _]; [now rewrite forallb_rev | reflexivity|].
  now rewrite Hdot.
Qed.

Lemma list_ascii_of_string_app (a b : string) :
  list_ascii_of_string (a +:+ b)
  = (list_ascii_of_string a ++ list_ascii_of_string b)%list.
Proof.
  induction a as [|c a IH]; [reflexivity|].
  rewrite append_cons. cbn [list_ascii_of_string app]. now rewrite IH.
Qed.

(** A name that is a dot followed by text without dot or separator, such
    as [.mp4], has no extension. *)
Lemma extname_dotfile (w : string) :
  no_dot w = true -> no_slash w = true -> extname ("." +:+ w) = "".
Proof.
  intros Hdot Hslash. unfold extname, no_dot, no_slash in *.
  rewrite append_cons, append_nil. cbn [list_ascii_of_string rev].
  rewrite extname_loop_app by now rewrite forallb_rev.
  destruct (extname_loop_no_dot (rev (list_ascii_of_string w)) extname_init)
    as [Hsd Hpd]; [now rewrite forallb_rev | reflexivity|].
  cbn [extname_loop Ascii.eqb Bool.eqb]. cbn -[extname_loop extname_init].
  rewrite Hsd. cbn [negb extname_loop es_startDot es_end es_preDot].
  rewrite Hpd. reflexivity.
Qed.

(** X18. An upload whose original name has no extension is rejected, as
    a video and as a thumbnail: a name without any dot, and a name that is
    only a dot followed by the would-be extension, such as [.mp4]. *)
Theorem names_without_extension_are_rejected
    (toLowerCase : string -> string) (fieldname name : string) :
  toLowerCase "" = "" ->
  no_dot name = true
  \/ (exists w, name = "." +:+ w /\ no_dot w = true /\ no_slash w = true) ->
  fieldname = "video" \/ fieldname = "thumbnail" ->
  fileFilter toLowerCase fieldname name = false.
Proof.
  intros Hlower Hname Hfield.
  assert (Hext : extname name = "").
  { destruct Hname as [Hnd|(w & -> & Hnd & Hns)];
      [now apply extname_no_dot | now apply extname_dotfile]. }
  unfold fileFilter. rewrite Hext, Hlower.
  destruct Hfield as [->| ->]; reflexivity.
Qed.

(** * Numeric route parameters and fields *)

Lemma parse_unsigned_digits (negative : bool) (d : uint) :
  d <> Nil ->
  parse_unsigned negative (NilEmpty.string_of_uint d)
  = of_mathint (if negative then - Z.of_N (N.of_uint d)
                else Z.of_N (N.of_uint d)).
Proof.
  intros Hd. unfold parse_unsigned.
  rewrite digit_prefix_only_digits.
  destruct d as [|d|d|d|d|d|d|d|d|d|d]; [contradiction|..];
    try reflexivity.
  destruct d; reflexivity.
Qed.

Lemma parseInt_auto_digits (negative : bool) (d : uint) :
  d <> Nil ->
  parseInt_auto ((if negative then "-" else "") +:+ NilEmpty.string_of_uint d)
  = of_mathint (if negative then - Z.of_N (N.of_uint d)
                else Z.of_N (N.of_uint d)).
Proof.
  intros Hd. pose proof (parse_unsigned_digits negative d Hd) as Hparse.
  unfold parseInt_auto. destruct negative.
  - rewrite append_cons, append_nil. exact Hparse.
  - rewrite append_nil.
    destruct d as [|d|d|d|d|d|d|d|d|d|d]; [contradiction|..]; exact Hparse.
Qed.

(** [parseInt] without a radix inverts the printing of a safe integer. *)
Lemma parseInt_auto_toString (n : Z) :
  - MAX_SAFE_INTEGER <= n <= MAX_SAFE_INTEGER ->
  parseInt_auto (toString (Num n)) = Num n.
Proof.
  intros Hn. unfold toString, digits_of_N.
  destruct (Z.ltb_spec n 0) as [Hneg|Hpos].
  - rewrite (parseInt_auto_digits true) by apply to_uint_not_nil.
    rewrite DecimalN.Unsigned.of_to, Z2N.id by lia.
    rewrite of_mathint_exact by lia. f_equal. lia.
  - rewrite <- (append_nil (NilEmpty.string_of_uint _)).
    rewrite (parseInt_auto_digits false) by apply to_uint_not_nil.
    rewrite DecimalN.Unsigned.of_to, Z2N.id by lia.
    apply of_mathint_exact. lia.
Qed.

(** A text that starts with neither white space, a sign nor a digit is
    not a number. *)
Lemma parseInt_auto_not_a_number (c : ascii) (r : string) :
  is_whitespace c = false -> c <> "-"%char -> c <> "+"%char ->
  digit_of_ascii c = None ->
  parseInt_auto (String c r) = NaN.
Proof.
  intros Hws Hminus Hplus Hdigit.
  destruct c as [[|] [|] [|] [|] [|] [|] [|] [|]];
    try discriminate; try (now destruct Hminus); try (now destruct Hplus);
    reflexivity.
Qed.

(** X19. [GET /api/content/recent/:limit] asks the catalog for
    [parseInt(limit) || 10] rows: a decimal limit other than zero is
    passed on as it is, negative ones included; zero is replaced by 10,
    and so is a limit that starts with neither white space, a sign nor a
    digit. *)
Theorem recent_limit_falls_back_to_10 (n : Z) :
  - MAX_SAFE_INTEGER <= n <= MAX_SAFE_INTEGER ->
  recent_limit (toString (Num n)) = (if n =? 0 then Num 10 else Num n)
  /\ (forall c r,
        is_whitespace c = false -> c <> "-"%char -> c <> "+"%char ->
        digit_of_ascii c = None ->
        recent_limit (String c r) = Num 10).
Proof.
  intros Hn. split.
  - unfold recent_limit. rewrite parseInt_auto_toString by assumption.
    cbn [number_truthy]. now destruct (n =? 0).
  - intros c r Hws Hminus Hplus Hdigit. unfold recent_limit.
    now rewrite parseInt_auto_not_a_number.
Qed.

(** * Updating content *)

Section Updating.

Variable now : string.

(** The update handler, step by step. *)
Lemma update_content_steps (fs : filesystem) (table : content_table)
    (id : string) (body : update_body) (file : option string) :
  update_content now fs table id body file
  = match table !! id with
    | None =>
        mkAppState fs table
          (mkApiResponse 404 (Some (ApiError "Content not found")))
    | Some item =>
        mkAppState fs
          (alter (fun row =>
                    mkContent (c_id row)
                      (if truthy (b_title body) then ToString (b_title body)
                       else c_title item)
                      (if truthy (b_description body) then b_description body
                       else c_description item)
                      (c_type row)
                      (if truthy (b_genre body) then b_genre body
                       else c_genre item)
                      (if number_truthy (parseInt_auto (ToString (b_year body)))
                       then Some (parseInt_auto (ToString (b_year body)))
                       else c_year item)
                      (match file with
                       | Some filename =>
                           Some ("/media/thumbnails/" +:+ filename)
                       | None => c_thumbnail item
                       end)
                      (c_video_path row) (c_duration row) (c_created_at row)
                      now) id table)
          (mkApiResponse 200 (Some (ApiMessage "Content updated successfully")))
    end.
Proof.
  unfold update_content, update_content_handler, try_catch, api_bind,
    content_getById, content_update, api_status, api_json.
  cbn [st_content st_fs st_res fst snd].
  destruct (table !! id) as [item|]; reflexivity.
Qed.

(** X20. A field cannot be cleared.  When title, description, genre and
    year are missing or sent empty and no thumbnail is uploaded, the
    answer is 200 and the row keeps every column except [updated_at]. *)
Theorem update_without_fields_keeps_row (fs : filesystem)
    (table : content_table) (id : string) (item : content_row)
    (body : update_body) :
  table !! id = Some item ->
  truthy (b_title body) = false -> truthy (b_description body) = false ->
  truthy (b_genre body) = false -> truthy (b_year body) = false ->
  let st := update_content now fs table id body None in
  api_statusCode (st_res st) = 200
  /\ st_content st !! id
     = Some (mkContent (c_id item) (c_title item) (c_description item)
               (c_type item) (c_genre item) (c_year item) (c_thumbnail item)
               (c_video_path item) (c_duration item) (c_created_at item) now).
Proof.
  intros Hitem Ht Hd Hg Hy. cbv zeta.
  rewrite update_content_steps, Hitem. cbn [st_res st_content api_statusCode].
  split; [reflexivity|]. rewrite lookup_alter_eq, Hitem. cbn [fmap option_fmap option_map].
  rewrite Ht, Hd, Hg.
  assert (Hyear : parseInt_auto (ToString (b_year body)) = NaN).
  { destruct (b_year body) as [[|c r]|]; [reflexivity | discriminate
                                         | reflexivity]. }
  now rewrite Hyear.
Qed.

(** X21. The year is replaced by a decimal year other than zero; the year
    [0] cannot be stored by an update: it keeps the year the row had. *)
Theorem update_year_zero_keeps_year (fs : filesystem) (table : content_table)
    (id : string) (item : content_row) (body : update_body)
    (file : option string) (y : Z) :
  table !! id = Some item ->
  0 <= y <= MAX_SAFE_INTEGER ->
  b_year body = Some (toString (Num y)) ->
  c_year <$> (st_content (update_content now fs table id body file) !! id)
  = Some (if y =? 0 then c_year item else Some (Num y)).
Proof.
  intros Hitem Hy Hbody.
  rewrite update_content_steps, Hitem. cbn [st_content].
  rewrite lookup_alter_eq, Hitem. cbn [fmap option_fmap option_map c_year].
  rewrite Hbody. cbn [ToString].
  rewrite parseInt_auto_toString by lia. cbn [number_truthy].
  now destruct (y =? 0).
Qed.

(** X22. An update never touches the file system (the file of a replaced
    thumbnail stays where it was), never changes another row, and in its
    own row never changes the id, the type, the video path, the duration
    or the creation time; an unknown id changes nothing. *)
Theorem update_leaves_the_rest (fs : filesystem) (table : content_table)
    (id : string) (body : update_body) (file : option string) :
  let st := update_content now fs table id body file in
  st_fs st = fs
  /\ (forall other, other <> id -> st_content st !! other = table !! other)
  /\ (table !! id = None -> st_content st = table)
  /\ (forall item, table !! id = Some item ->
        exists row, st_content st !! id = Some row
          /\ c_id row = c_id item /\ c_type row = c_type item
          /\ c_video_path row = c_video_path item
          /\ c_duration row = c_duration item
          /\ c_created_at row = c_created_at item).
Proof.
  cbv zeta. rewrite update_content_steps.
  destruct (table !! id) as [item|] eqn:Hitem; cbn [st_fs st_content].
  - split; [reflexivity|]. split.
    + intros other Hne. now rewrite lookup_alter_ne.
    + split; [discriminate|]. intros item' [= <-].
      rewrite lookup_alter_eq, Hitem. cbn. eexists. split; [reflexivity|].
      repeat split.
  - split; [reflexivity|]. split; [reflexivity|]. split; [reflexivity|].
    discriminate.
Qed.

End Updating.

(** * The sections of the home page *)

(** X23. Whatever the catalog returns is shown in exactly one of the two
    carousels: the movies followed by the series are a rearrangement of
    the loaded content. *)
Theorem carousels_partition_content (all : list content_row) :
  forallb valid_type all = true ->
  movies_of all ++ series_of all ≡ₚ all.
Proof.
  unfold movies_of, series_of.
  induction all as [|c l IH]; intros Hvalid; [reflexivity|].
  cbn [forallb] in Hvalid. apply andb_prop in Hvalid as [Hc Hl].
  specialize (IH Hl). cbn [List.filter]. unfold valid_type in Hc.
  destruct (String.eqb_spec (c_type c) "movie") as [Hm|Hm].
  - rewrite Hm. cbn [String.eqb Ascii.eqb Bool.eqb]. cbn. now rewrite IH.
  - cbn [orb] in Hc. rewrite Hc.
    rewrite <- Permutation_middle. now rewrite IH.
Qed.

Lemma carousels_partition_lengths (all : list content_row) :
  forallb valid_type all = true ->
  (length (movies_of all) + length (series_of all))%nat = length all.
Proof.
  unfold movies_of, series_of.
  induction all as [|c l IH]; intros Hvalid; [reflexivity|].
  cbn [forallb] in Hvalid. apply andb_prop in Hvalid as [Hc Hl].
  specialize (IH Hl). cbn [List.filter]. unfold valid_type in Hc.
  destruct (String.eqb_spec (c_type c) "movie") as [Hm|Hm].
  - rewrite Hm. cbn [String.eqb Ascii.eqb Bool.eqb]. cbn. lia.
  - cbn [orb] in Hc. rewrite Hc. cbn [length]. lia.
Qed.

(** X24. The two sections are never hidden together when the catalog
    holds valid rows, and both are shown when it is empty. *)
Theorem sections_are_not_both_hidden (pg : page) :
  forallb valid_type (allContent pg) = true ->
  let d := display (toggleSectionVisibility pg) in
  ~ (d !! "moviesSection" = Some "none" /\ d !! "seriesSection" = Some "none")
  /\ (allContent pg = [] ->
      d !! "moviesSection" = Some "block"
      /\ d !! "seriesSection" = Some "block").
Proof.
  intros Hvalid. cbv zeta. unfold toggleSectionVisibility. cbn [display].
  rewrite lookup_insert_ne by discriminate.
  rewrite !lookup_insert_eq.
  pose proof (carousels_partition_lengths (allContent pg) Hvalid) as Hlen.
  split.
  - intros [Hm Hs].
    destruct (length (movies_of (allContent pg))) eqn:Em;
      destruct (length (series_of (allContent pg))) eqn:Es;
      destruct (length (allContent pg)) eqn:Ea; cbn in *;
      try discriminate; lia.
  - intros Hnil. rewrite Hnil. cbn. split; reflexivity.
Qed.

(** * The further properties on the concrete deployment *)

Example extname_examples :
  extname "index.html" = ".html" /\ extname "index.coffee.md" = ".md"
  /\ extname "index." = "." /\ extname "index" = ""
  /\ extname ".index" = "" /\ extname ".index.md" = ".md"
  /\ extname "dir.d/file" = "" /\ extname "a/b.txt/" = ".txt"
  /\ extname ".." = "".
Proof. repeat split. Qed.

Example parseInt_auto_examples :
  parseInt_auto "0x1f" = Num 31 /\ parseInt_auto "12px" = Num 12
  /\ parseInt_auto " -0X10" = Num (-16) /\ parseInt_auto "0x" = NaN
  /\ parseInt_auto "" = NaN /\ parseInt_auto "010" = Num 10.
Proof. repeat split. Qed.

Example sample_uuid_like : uuid_like sample_uuid = true.
Proof. reflexivity. Qed.

Lemma range_without_dash_is_open_ended_witness :
  0 <= 3
  /\ serve app_dir disk
       (mkRequest "clip.mp4" (Some ("bytes=" +:+ toString (Num 3))))
     = serve app_dir disk (mkRequest "clip.mp4" (Some (bytes_from 3))).
Proof.
  assert (Hs : 0 <= 3) by lia.
  split; [exact Hs|].
  exact (range_without_dash_is_open_ended app_dir disk "clip.mp4" 3 Hs).
Defined.

Lemma range_without_unit_is_accepted_witness :
  0 <= 2 /\ 0 <= 5
  /\ serve app_dir disk
       (mkRequest "clip.mp4"
          (Some (toString (Num 2) +:+ "-" +:+ toString (Num 5))))
     = serve app_dir disk (mkRequest "clip.mp4" (Some (bytes_range 2 5))).
Proof.
  assert (Hs : 0 <= 2) by lia. assert (He : 0 <= 5) by lia.
  split; [exact Hs|]. split; [exact He|].
  exact (range_without_unit_is_accepted app_dir disk "clip.mp4" 2 5 Hs He).
Defined.

Lemma text_after_end_offset_is_ignored_witness :
  0 <= 0 /\ 0 <= 99 /\ starts_with_digit ",200-299" = false
  /\ serve app_dir disk
       (mkRequest "movie.mp4"
          (Some ("bytes=" +:+ toString (Num 0) +:+ "-" +:+ toString (Num 99)
                 +:+ ",200-299")))
     = serve app_dir disk (mkRequest "movie.mp4" (Some (bytes_range 0 99))).
Proof.
  assert (Hs : 0 <= 0) by lia. assert (He : 0 <= 99) by lia.
  assert (Ht : starts_with_digit ",200-299" = false) by reflexivity.
  split; [exact Hs|]. split; [exact He|]. split; [exact Ht|].
  exact (text_after_end_offset_is_ignored app_dir disk "movie.mp4" ",200-299"
           0 99 Hs He Ht).
Defined.

Lemma reversed_range_throws_witness :
  lookup_path disk (resolved app_dir "clip.mp4") = Some (File clip)
  /\ 0 <= 2 < 5 /\ 5 <= MAX_SAFE_INTEGER
  /\ serve app_dir disk (mkRequest "clip.mp4" (Some (bytes_range 5 2)))
     = (Throw (ERR_OUT_OF_RANGE "start"),
        after_stat (resolved app_dir "clip.mp4")).
Proof.
  assert (Hfile : lookup_path disk (resolved app_dir "clip.mp4")
                  = Some (File clip)) by (vm_compute; reflexivity).
  assert (He : 0 <= 2 < 5) by lia.
  assert (Hs : 5 <= MAX_SAFE_INTEGER) by (vm_compute; discriminate).
  split; [exact Hfile|]. split; [exact He|]. split; [exact Hs|].
  exact (reversed_range_throws app_dir disk "clip.mp4" (File clip) 5 2
           Hfile He Hs).
Defined.

Lemma suffix_range_is_rejected_witness :
  lookup_path disk (resolved app_dir "clip.mp4") = Some (File clip)
  /\ 0 <= 500
  /\ let run := serve app_dir disk
                  (mkRequest "clip.mp4"
                     (Some ("bytes=" +:+ "-" +:+ toString (Num 500)))) in
     run.1 = Throw (ERR_OUT_OF_RANGE "start")
     /\ status_written run.2 = None
     /\ opened_streams run.2 = [].
Proof.
  assert (Hfile : lookup_path disk (resolved app_dir "clip.mp4")
                  = Some (File clip)) by (vm_compute; reflexivity).
  assert (Hk : 0 <= 500) by lia.
  split; [exact Hfile|]. split; [exact Hk|].
  exact (suffix_range_is_rejected app_dir disk "clip.mp4" (File clip) 500
           Hfile Hk).
Defined.

Lemma request_without_range_returns_witness :
  truthy (Some "") = false
  /\ let run := serve app_dir disk (mkRequest "clip.mp4" (Some "")) in
     run.1 = Ok tt
     /\ (status_written run.2 = Some 200 \/ status_written run.2 = Some 404).
Proof.
  assert (Hfalsy : truthy (Some "") = false) by reflexivity.
  split; [exact Hfalsy|].
  exact (request_without_range_returns app_dir disk "clip.mp4" (Some "")
           Hfalsy).
Defined.

Lemma accept_ranges_only_on_206_witness :
  let w := (serve app_dir disk
              (mkRequest "clip.mp4" (Some "bytes=2-5"))).2 in
  let w' := (serve app_dir disk (mkRequest "clip.mp4" None)).2 in
  status_written w = Some 206 /\ status_written w' <> Some 206
  /\ header "Accept-Ranges" w = Some (HStr "bytes")
  /\ header "Accept-Ranges" w' = None.
Proof.
  cbv zeta.
  assert (H206 : status_written
                   (serve app_dir disk
                      (mkRequest "clip.mp4" (Some "bytes=2-5"))).2
                 = Some 206) by (vm_compute; reflexivity).
  assert (H200 : status_written
                   (serve app_dir disk (mkRequest "clip.mp4" None)).2
                 <> Some 206) by (vm_compute; discriminate).
  split; [exact H206|]. split; [exact H200|]. split.
  - exact (proj1 (accept_ranges_only_on_206 app_dir disk
                    (mkRequest "clip.mp4" (Some "bytes=2-5"))) H206).
  - exact (proj2 (accept_ranges_only_on_206 app_dir disk
                    (mkRequest "clip.mp4" None)) H200).
Defined.

Lemma content_type_is_always_mp4_witness :
  let w := (serve app_dir disk (mkRequest "clip.mp4" None)).2 in
  (status_written w = Some 200 \/ status_written w = Some 206)
  /\ header "Content-Type" w = Some (HStr "video/mp4").
Proof.
  cbv zeta.
  assert (Hs : status_written
                 (serve app_dir disk (mkRequest "clip.mp4" None)).2 = Some 200
               \/ status_written
                    (serve app_dir disk (mkRequest "clip.mp4" None)).2
                  = Some 206) by (left; vm_compute; reflexivity).
  split; [exact Hs|].
  exact (content_type_is_always_mp4 app_dir disk (mkRequest "clip.mp4" None)
           Hs).
Defined.

Lemma directory_request_ends_uncaught_witness :
  lookup_path disk (resolved app_dir ".") = Some (Dir 4096)
  /\ truthy None = false
  /\ let p := resolved app_dir "." in
     let run := serve app_dir disk (mkRequest "." None) in
     run.1 = Ok tt
     /\ statusCode (res run.2) = 200
     /\ header "Content-Length" run.2 = Some (HNum (Num 4096))
     /\ opened_streams run.2 = [mkReadStream p 0 None]
     /\ body (res run.2) = Some (PipedBody (mkReadStream p 0 None))
     /\ uncaught_error disk run.2 = Some (ReadEISDIR p)
     /\ response_sent disk run.2 = false
     /\ body_sent disk run.2 = None.
Proof.
  assert (Hdir : lookup_path disk (resolved app_dir ".") = Some (Dir 4096))
    by (vm_compute; reflexivity).
  assert (Hfalsy : truthy None = false) by reflexivity.
  split; [exact Hdir|]. split; [exact Hfalsy|].
  exact (directory_request_ends_uncaught app_dir disk "." 4096 None
           Hdir Hfalsy).
Defined.

Lemma uploaded_video_streams_back_witness :
  let transport := fun s => if url_unreserved s then Some s else None in
  carries_unreserved transport
  /\ uuid_like sample_uuid = true
  /\ url_unreserved (extname "Holiday Video.MP4") = true
  /\ let name := storage_filename sample_uuid "Holiday Video.MP4" in
     let disk' := <[segs (stored_at app_dir "video" name) := File clip]> disk in
     recorded_video_path (Some name) = Some ("/media/videos/" +:+ name)
     /\ stored_at app_dir "video" name
        = Path (segs (videosDir app_dir) ++ [name]) false
     /\ exists received w,
         transport (client_filename ("/media/videos/" +:+ name))
         = Some received
         /\ serve app_dir disk' (mkRequest received None) = (Ok tt, w)
         /\ status_written w = Some 200
         /\ header "Content-Length" w = Some (HNum (Num (file_size clip)))
         /\ uncaught_error disk' w = None
         /\ response_sent disk' w = true
         /\ body_sent disk' w = Some (bytes clip).
Proof.
  intros transport.
  assert (Hcarries : carries_unreserved transport).
  { intros s Hs _ _ _. unfold transport. now rewrite Hs. }
  assert (Huuid : uuid_like sample_uuid = true) by reflexivity.
  assert (Hext : url_unreserved (extname "Holiday Video.MP4") = true)
    by reflexivity.
  split; [exact Hcarries|]. split; [exact Huuid|]. split; [exact Hext|].
  exact (uploaded_video_streams_back app_dir disk transport sample_uuid
           "Holiday Video.MP4" clip Hcarries Huuid Hext).
Defined.

Lemma client_filename_is_last_segment_witness :
  no_slash "a.mp4" = true
  /\ client_filename ("/media/videos" +:+ "/" +:+ "a.mp4") = "a.mp4".
Proof.
  assert (Hn : no_slash "a.mp4" = true) by reflexivity.
  split; [exact Hn|].
  exact (client_filename_is_last_segment "/media/videos" "a.mp4" Hn).
Defined.

Lemma upload_stays_in_destination_witness :
  uuid_like sample_uuid = true
  /\ let name := storage_filename sample_uuid "../../etc/passwd.png" in
     stored_at app_dir "thumbnail" name
     = Path (segs (storage_destination app_dir "thumbnail") ++ [name]) false
     /\ inside (storage_destination app_dir "thumbnail")
               (stored_at app_dir "thumbnail" name).
Proof.
  assert (Huuid : uuid_like sample_uuid = true) by reflexivity.
  split; [exact Huuid|].
  exact (upload_stays_in_destination app_dir "thumbnail" sample_uuid
           "../../etc/passwd.png" Huuid).
Defined.

Lemma delete_touches_only_its_targets_witness :
  let k := ["srv"; "homestream"; "media"; "videos"; "clip.mp4"] in
  let st := delete_content app_dir public_disk catalog "m1" in
  (forall item, catalog !! "m1" = Some item ->
                k ∉ map segs (delete_targets app_dir item))
  /\ st_fs st !! k = public_disk !! k.
Proof.
  cbv zeta.
  assert (Hnot : forall item, catalog !! "m1" = Some item ->
            ["srv"; "homestream"; "media"; "videos"; "clip.mp4"]
            ∉ map segs (delete_targets app_dir item)).
  { intros item Hitem. vm_compute in Hitem. injection Hitem as <-.
    intros Hin. vm_compute in Hin.
    apply elem_of_cons in Hin as [Hin|Hin]; [discriminate|].
    apply elem_of_cons in Hin as [Hin|Hin]; [discriminate|].
    now apply elem_of_nil in Hin. }
  split; [exact Hnot|].
  exact (proj2 (delete_touches_only_its_targets app_dir public_disk catalog
                  "m1" ["srv"; "homestream"; "media"; "videos"; "clip.mp4"])
           Hnot).
Defined.

Lemma delete_succeeds_on_files_witness :
  map (lookup_path public_files_disk) (delete_targets app_dir film)
  = [Some (File clip); Some (File script)]
  /\ catalog !! "m1" = Some film
  /\ (forall p sz, p ∈ delete_targets app_dir film ->
                   lookup_path public_files_disk p <> Some (Dir sz))
  /\ let st := delete_content app_dir public_files_disk catalog "m1" in
     api_statusCode (st_res st) = 200
     /\ st_content st !! "m1" = None
     /\ forall p, p ∈ delete_targets app_dir film ->
                  lookup_path (st_fs st) p = None.
Proof.
  assert (Hitem : catalog !! "m1" = Some film) by (vm_compute; reflexivity).
  assert (Hnodir : forall p sz, p ∈ delete_targets app_dir film ->
                     lookup_path public_files_disk p <> Some (Dir sz)).
  { intros p sz Hp. vm_compute in Hp.
    apply elem_of_cons in Hp as [->|Hp];
      [vm_compute; discriminate|].
    apply elem_of_cons in Hp as [->|Hp];
      [vm_compute; discriminate|].
    now apply elem_of_nil in Hp. }
  split; [vm_compute; reflexivity|].
  split; [exact Hitem|]. split; [exact Hnodir|].
  exact (delete_succeeds_on_files app_dir public_files_disk catalog "m1" film
           Hitem Hnodir).
Defined.

Lemma delete_fails_after_removing_video_witness :
  let pv := public_path app_dir (ToString (c_video_path film)) in
  let pt := public_path app_dir (ToString (c_thumbnail film)) in
  let st := delete_content app_dir public_disk catalog "m1" in
  catalog !! "m1" = Some film
  /\ truthy (c_video_path film) = true /\ truthy (c_thumbnail film) = true
  /\ lookup_path public_disk pv = Some (File clip)
  /\ lookup_path public_disk pt = Some (Dir 4096)
  /\ st_res st = mkApiResponse 500 (Some (ApiErrorOf (EISDIR pt)))
  /\ st_content st = catalog
  /\ lookup_path (st_fs st) pv = None.
Proof.
  cbv zeta.
  assert (Hitem : catalog !! "m1" = Some film) by (vm_compute; reflexivity).
  assert (Hv : truthy (c_video_path film) = true) by reflexivity.
  assert (Ht : truthy (c_thumbnail film) = true) by reflexivity.
  assert (Hlv : lookup_path public_disk
                  (public_path app_dir (ToString (c_video_path film)))
                = Some (File clip)) by (vm_compute; reflexivity).
  assert (Hlt : lookup_path public_disk
                  (public_path app_dir (ToString (c_thumbnail film)))
                = Some (Dir 4096)) by (vm_compute; reflexivity).
  split; [exact Hitem|]. split; [exact Hv|]. split; [exact Ht|].
  split; [exact Hlv|]. split; [exact Hlt|].
  exact (delete_fails_after_removing_video app_dir public_disk catalog "m1"
           film clip 4096 Hitem Hv Ht Hlv Hlt).
Defined.

Lemma delete_leaves_uploads_in_place_witness :
  catalog !! "m1" = Some film
  /\ c_video_path film = recorded_video_path (Some "a.mp4")
  /\ c_thumbnail film = recorded_thumbnail_path (Some "a.jpg")
  /\ plain_segment "a.mp4" = true /\ plain_segment "a.jpg" = true
  /\ st_fs (delete_content app_dir stored_disk catalog "m1")
       !! segs (stored_at app_dir "video" "a.mp4")
     = stored_disk !! segs (stored_at app_dir "video" "a.mp4").
Proof.
  assert (Hitem : catalog !! "m1" = Some film) by (vm_compute; reflexivity).
  assert (Hv : c_video_path film = recorded_video_path (Some "a.mp4"))
    by reflexivity.
  assert (Ht : c_thumbnail film = recorded_thumbnail_path (Some "a.jpg"))
    by reflexivity.
  assert (Hpv : plain_segment "a.mp4" = true) by reflexivity.
  assert (Hpt : plain_segment "a.jpg" = true) by reflexivity.
  split; [exact Hitem|]. split; [exact Hv|]. split; [exact Ht|].
  split; [exact Hpv|]. split; [exact Hpt|].
  exact (delete_leaves_uploads_in_place app_dir stored_disk catalog "m1" film
           (Some "a.mp4") (Some "a.jpg") "video" "a.mp4"
           Hitem Hv Ht Hpv Hpt Hpv).
Defined.

Lemma names_without_extension_are_rejected_witness :
  ascii_toLowerCase "" = ""
  /\ (exists w, ".mp4" = "." +:+ w /\ no_dot w = true /\ no_slash w = true)
  /\ fileFilter ascii_toLowerCase "video" ".mp4" = false.
Proof.
  assert (Hlower : ascii_toLowerCase "" = "") by reflexivity.
  assert (Hname : exists w, ".mp4" = "." +:+ w /\ no_dot w = true
                            /\ no_slash w = true)
    by (exists "mp4"; repeat split).
  split; [exact Hlower|]. split; [exact Hname|].
  exact (names_without_extension_are_rejected ascii_toLowerCase "video" ".mp4"
           Hlower (or_intror Hname) (or_introl eq_refl)).
Defined.

Lemma recent_limit_falls_back_to_10_witness :
  - MAX_SAFE_INTEGER <= 0 <= MAX_SAFE_INTEGER
  /\ recent_limit (toString (Num 0)) = Num 10
  /\ recent_limit "all" = Num 10.
Proof.
  assert (Hn : - MAX_SAFE_INTEGER <= 0 <= MAX_SAFE_INTEGER)
    by (split; vm_compute; discriminate).
  split; [exact Hn|]. split.
  - exact (proj1 (recent_limit_falls_back_to_10 0 Hn)).
  - exact (proj2 (recent_limit_falls_back_to_10 0 Hn) "a"%char "ll"
             eq_refl ltac:(discriminate) ltac:(discriminate) eq_refl).
Defined.

Lemma update_without_fields_keeps_row_witness :
  let body := mkUpdateBody (Some "") None (Some "") None in
  let st := update_content "2024-03-01 09:00:00" disk catalog "m1" body None in
  catalog !! "m1" = Some film
  /\ api_statusCode (st_res st) = 200
  /\ st_content st !! "m1"
     = Some (mkContent (c_id film) (c_title film) (c_description film)
               (c_type film) (c_genre film) (c_year film) (c_thumbnail film)
               (c_video_path film) (c_duration film) (c_created_at film)
               "2024-03-01 09:00:00").
Proof.
  cbv zeta.
  assert (Hitem : catalog !! "m1" = Some film) by (vm_compute; reflexivity).
  split; [exact Hitem|].
  exact (update_without_fields_keeps_row "2024-03-01 09:00:00" disk catalog
           "m1" film (mkUpdateBody (Some "") None (Some "") None)
           Hitem eq_refl eq_refl eq_refl eq_refl).
Defined.

Lemma update_year_zero_keeps_year_witness :
  let body := mkUpdateBody None None None (Some (toString (Num 0))) in
  catalog !! "m1" = Some film
  /\ 0 <= 0 <= MAX_SAFE_INTEGER
  /\ c_year <$> (st_content
                   (update_content "2024-03-01 09:00:00" disk catalog "m1"
                      body None) !! "m1")
     = Some (c_year film).
Proof.
  cbv zeta.
  assert (Hitem : catalog !! "m1" = Some film) by (vm_compute; reflexivity).
  assert (Hy : 0 <= 0 <= MAX_SAFE_INTEGER)
    by (split; vm_compute; discriminate).
  split; [exact Hitem|]. split; [exact Hy|].
  exact (update_year_zero_keeps_year "2024-03-01 09:00:00" disk catalog "m1"
           film (mkUpdateBody None None None (Some (toString (Num 0)))) None 0
           Hitem Hy eq_refl).
Defined.

Lemma update_leaves_the_rest_witness :
  let body := mkUpdateBody (Some "New title") None None None in
  let st := update_content "2024-03-01 09:00:00" disk catalog "m1" body
              (Some "b.jpg") in
  "s1" <> "m1"
  /\ st_fs st = disk
  /\ st_content st !! "s1" = catalog !! "s1".
Proof.
  cbv zeta.
  assert (Hne : "s1" <> "m1") by discriminate.
  split; [exact Hne|]. split.
  - exact (proj1 (update_leaves_the_rest "2024-03-01 09:00:00" disk catalog
                    "m1" (mkUpdateBody (Some "New title") None None None)
                    (Some "b.jpg"))).
  - exact (proj1 (proj2 (update_leaves_the_rest "2024-03-01 09:00:00" disk
                           catalog "m1"
                           (mkUpdateBody (Some "New title") None None None)
                           (Some "b.jpg"))) "s1" Hne).
Defined.

Lemma carousels_partition_content_witness :
  forallb valid_type [film; serial; film] = true
  /\ movies_of [film; serial; film] ++ series_of [film; serial; film]
     ≡ₚ [film; serial; film].
Proof.
  assert (Hvalid : forallb valid_type [film; serial; film] = true)
    by reflexivity.
  split; [exact Hvalid|].
  exact (carousels_partition_content [film; serial; film] Hvalid).
Defined.

Lemma sections_are_not_both_hidden_witness :
  let pg := mkPage [film] ∅ in
  let d := display (toggleSectionVisibility pg) in
  forallb valid_type (allContent pg) = true
  /\ ~ (d !! "moviesSection" = Some "none"
        /\ d !! "seriesSection" = Some "none").
Proof.
  cbv zeta.
  assert (Hvalid : forallb valid_type (allContent (mkPage [film] ∅)) = true)
    by reflexivity.
  split; [exact Hvalid|].
  exact (proj1 (sections_are_not_both_hidden (mkPage [film] ∅) Hvalid)).
Defined.
